(** * rclcpp::TimerBase (rclcpp/src/rclcpp/timer.cpp)

    A shallow embedding of the timer wrapper around the rcl timing engine:
    construction and the handle's deleter, the state queries, and the
    protocol that installs, replaces and clears the "on reset" callback.

    The rcl engine is an external C library.  It is taken as a parameter
    (record [rcl]): every engine entry point is a function on an abstract
    engine state that yields a return code.  Methods of [TimerBase] are
    computations over a [world] (engine state, user state, the object's
    members) that end in an [outcome] and emit a list of [event]s, the
    observable actions in program order. *)

From Stdlib Require Import ZArith List String Bool Lia.
Import ListNotations.
Local Open Scope Z_scope.

(** ** Scalars and constants *)

Definition address := Z.
Definition size_t := Z.
Definition int64_t := Z.
Definition rcl_ret_t := Z.

(** rcl/types.h *)
Definition RCL_RET_OK : rcl_ret_t := 0.
Definition RCL_RET_TIMER_CANCELED : rcl_ret_t := 801.

(** std::chrono::nanoseconds::max(): the largest value of the signed
    64-bit representation. *)
Definition nanoseconds_max : int64_t := 2 ^ 63 - 1.

(** [ret != RCL_RET_OK] *)
Definition failed (ret : rcl_ret_t) : bool := negb (ret =? RCL_RET_OK).

(** ** Pointers handed to the engine *)

(** The [user_data] values that this file passes to
    [rcl_timer_set_on_reset_callback]: [nullptr] (line 206), the address of
    the local [new_callback] (line 188) and the address of the member
    [on_reset_callback_] (line 197). *)
Inductive pointer : Type :=
| nullptr
| addr_new_callback
| addr_on_reset_callback_.

(** The two instantiations of [cpp_callback_trampoline] used as the
    engine-side function pointer (lines 186 and 195); a null function
    pointer is [None]. *)
Inductive rcl_event_callback_t : Type :=
| trampoline_new_callback
| trampoline_on_reset_callback_.

(** ** Exceptions *)

(** What user code may throw into the adapter: an object derived from
    [std::exception] (with its demangled type name and [what()]), or
    anything else. *)
Inductive user_throw : Type :=
| throw_std (type_name what : string)
| throw_other.

Inductive exception : Type :=
| RCLError (ret : rcl_ret_t) (prefix error_string : string)
| invalid_argument (what_arg : string)
| bad_function_call.

(** ** Log records *)

(** One operand of a [<<] chain or of a printf-style format. *)
Inductive piece : Type :=
| Text (s : string)
| Ptr (p : address).

(** ** The engine *)

(** A callback invocation the engine performs during a call: the stored
    function pointer applied to the stored [user_data] and a count. *)
Definition firing : Type := rcl_event_callback_t * pointer * size_t.

(** The engine entry points used by timer.cpp.  Out-parameters are
    modelled as "cell before -> cell after": the caller's local is passed
    in with its initial value and the value left in it is returned. *)
Record rcl (E : Type) : Type := {
  write_zero_initialized_timer : E -> option address -> E;
  rcl_timer_init :
    E -> option address -> address -> option address -> int64_t -> rcl_ret_t * E;
  rcl_timer_fini : E -> address -> rcl_ret_t * E;
  rcl_timer_cancel : E -> option address -> rcl_ret_t * E;
  rcl_timer_is_canceled : E -> option address -> bool -> rcl_ret_t * bool * E;
  rcl_timer_reset : E -> option address -> rcl_ret_t * option firing * E;
  rcl_timer_is_ready : E -> option address -> bool -> rcl_ret_t * bool * E;
  rcl_timer_get_time_until_next_call :
    E -> option address -> int64_t -> rcl_ret_t * int64_t * E;
  rcl_timer_set_on_reset_callback :
    E -> option address -> option rcl_event_callback_t -> pointer -> rcl_ret_t * E;
  rcl_get_error_string : E -> string;
  rcl_reset_error : E -> E;
  (* collaborators of the constructor *)
  get_global_default_context : address;
  get_rcl_context : address -> option address;
  get_clock_handle : address -> address
}.

Arguments write_zero_initialized_timer {E}.
Arguments rcl_timer_init {E}.
Arguments rcl_timer_fini {E}.
Arguments rcl_timer_cancel {E}.
Arguments rcl_timer_is_canceled {E}.
Arguments rcl_timer_reset {E}.
Arguments rcl_timer_is_ready {E}.
Arguments rcl_timer_get_time_until_next_call {E}.
Arguments rcl_timer_set_on_reset_callback {E}.
Arguments rcl_get_error_string {E}.
Arguments rcl_reset_error {E}.
Arguments get_global_default_context {E}.
Arguments get_rcl_context {E}.
Arguments get_clock_handle {E}.

(** ** Outcomes *)

Inductive outcome (A : Type) : Type :=
| Returned (a : A)
| Thrown (e : exception)
| Terminated           (* std::terminate *)
| Undefined.           (* a dereference of a null or dead pointer *)

Arguments Returned {A}.
Arguments Thrown {A}.
Arguments Terminated {A}.
Arguments Undefined {A}.

Section Model.

Context {E U : Type}.
Variable api : rcl E.

(** A user callback [void(size_t)]: it acts on the user's own state and
    either returns or throws. *)
Definition user_fn : Type := size_t -> U -> option user_throw * U.

(** The closure [new_callback] of lines 160-178, capturing [callback] and
    [this] by copy.  It is the only callable this file ever stores in
    [on_reset_callback_]. *)
Inductive on_reset_fn : Type :=
| NewCallback (callback : user_fn) (this : address).

(** ** Events *)

Inductive mutex : Type :=
| clock_mutex (clock : address)
| callback_mutex_.

(** Holders of a shared reference that this file releases. *)
Inductive holder : Type :=
| deleter_clock            (* capture [clock] of the deleter *)
| deleter_rcl_context      (* capture [rcl_context] of the deleter *)
| local_rcl_context        (* local [rcl_context] of the constructor *)
| member_clock_            (* member [clock_] *)
| member_timer_handle_.    (* member [timer_handle_] *)

Inductive rcl_call : Type :=
| call_timer_init (timer : option address) (clock_handle : address)
    (context : option address) (period : int64_t)
| call_timer_fini (timer : address)
| call_timer_cancel (timer : option address)
| call_timer_is_canceled (timer : option address)
| call_timer_reset (timer : option address)
| call_timer_is_ready (timer : option address)
| call_timer_get_time_until_next_call (timer : option address)
    (* [pointee]: what [user_data] points to when the call is made *)
| call_timer_set_on_reset_callback (timer : option address)
    (callback : option rcl_event_callback_t) (user_data : pointer)
    (pointee : option on_reset_fn).

Inductive event : Type :=
| EvLock (m : mutex)
| EvUnlock (m : mutex)
| EvNew (timer : address)
| EvDelete (timer : address)
| EvRcl (c : rcl_call)
| EvResetError
| EvLogError (logger : string) (message : list piece)
| EvRelease (h : holder) (target : address)
    (* [on_reset_callback_ = ...]: the callable destroyed and the one stored *)
| EvAssignCallback (old new : option on_reset_fn)
| EvUserCallback (reset_calls : size_t).

(** ** State *)

(** Control block of [timer_handle_]: owners, the managed raw pointer and
    the deleter's captures. *)
Record control_block : Type := {
  use_count : nat;
  managed : address;
  captured_clock : option address;
  captured_rcl_context : option address
}.

Record world : Type := {
  engine : E;
  user : U;
  (* the TimerBase object *)
  this : address;
  clock_ : option address;
  timer_handle_ : option address;
  on_reset_callback_ : option on_reset_fn;
  (* the control block [timer_handle_] shares *)
  handle_block : option control_block;
  (* the local [new_callback] while set_on_reset_callback is active *)
  new_callback_local : option on_reset_fn
}.

Definition set_engine (e : E) (w : world) : world :=
  {| engine := e; user := user w; this := this w; clock_ := clock_ w;
     timer_handle_ := timer_handle_ w; on_reset_callback_ := on_reset_callback_ w;
     handle_block := handle_block w; new_callback_local := new_callback_local w |}.

Definition set_user (u : U) (w : world) : world :=
  {| engine := engine w; user := u; this := this w; clock_ := clock_ w;
     timer_handle_ := timer_handle_ w; on_reset_callback_ := on_reset_callback_ w;
     handle_block := handle_block w; new_callback_local := new_callback_local w |}.

Definition set_clock_ (c : option address) (w : world) : world :=
  {| engine := engine w; user := user w; this := this w; clock_ := c;
     timer_handle_ := timer_handle_ w; on_reset_callback_ := on_reset_callback_ w;
     handle_block := handle_block w; new_callback_local := new_callback_local w |}.

Definition set_timer_handle_ (t : option address) (w : world) : world :=
  {| engine := engine w; user := user w; this := this w; clock_ := clock_ w;
     timer_handle_ := t; on_reset_callback_ := on_reset_callback_ w;
     handle_block := handle_block w; new_callback_local := new_callback_local w |}.

Definition set_on_reset_callback_ (f : option on_reset_fn) (w : world) : world :=
  {| engine := engine w; user := user w; this := this w; clock_ := clock_ w;
     timer_handle_ := timer_handle_ w; on_reset_callback_ := f;
     handle_block := handle_block w; new_callback_local := new_callback_local w |}.

Definition set_handle_block (b : option control_block) (w : world) : world :=
  {| engine := engine w; user := user w; this := this w; clock_ := clock_ w;
     timer_handle_ := timer_handle_ w; on_reset_callback_ := on_reset_callback_ w;
     handle_block := b; new_callback_local := new_callback_local w |}.

Definition set_new_callback_local (f : option on_reset_fn) (w : world) : world :=
  {| engine := engine w; user := user w; this := this w; clock_ := clock_ w;
     timer_handle_ := timer_handle_ w; on_reset_callback_ := on_reset_callback_ w;
     handle_block := handle_block w; new_callback_local := f |}.

(** ** The monad: state, event log, outcome *)

Definition M (A : Type) : Type := world -> outcome A * world * list event.

Definition ret {A} (a : A) : M A := fun w => (Returned a, w, []).

Definition bind {A B} (m : M A) (f : A -> M B) : M B :=
  fun w =>
    let '(o, w1, t1) := m w in
    match o with
    | Returned a => let '(o2, w2, t2) := f a w1 in (o2, w2, t1 ++ t2)
    | Thrown e => (Thrown e, w1, t1)
    | Terminated => (Terminated, w1, t1)
    | Undefined => (Undefined, w1, t1)
    end.

Definition throw {A} (e : exception) : M A := fun w => (Thrown e, w, []).
Definition undefined {A} : M A := fun w => (Undefined, w, []).
Definition emit (ev : event) : M unit := fun w => (Returned tt, w, [ev]).
Definition get : M world := fun w => (Returned w, w, []).
Definition modify (f : world -> world) : M unit := fun w => (Returned tt, f w, []).

(** Runs [m], then [cleanup] whatever the outcome of [m] was: a scope
    exit, normal or by unwinding. *)
Definition finally {A} (m : M A) (cleanup : M unit) : M A :=
  fun w =>
    let '(o, w1, t1) := m w in
    match o with
    | Returned _ | Thrown _ =>
        let '(_, w2, t2) := cleanup w1 in (o, w2, t1 ++ t2)
    | Terminated | Undefined => (o, w1, t1)
    end.

(** A handler for every exception, as run when an exception leaves a
    scope that reacts to it. *)
Definition on_throw {A} (m : M A) (h : exception -> M A) : M A :=
  fun w =>
    let '(o, w1, t1) := m w in
    match o with
    | Thrown e => let '(o2, w2, t2) := h e w1 in (o2, w2, t1 ++ t2)
    | _ => (o, w1, t1)
    end.

Notation "x <- m ;; k" := (bind m (fun x => k))
  (at level 61, m at next level, right associativity).
Notation "m ;;; k" := (bind m (fun _ => k))
  (at level 61, right associativity).

(** ** Primitives *)

(** An engine call: logged, and the engine state replaced by the one the
    call leaves. *)
Definition rcl_invoke {A} (c : rcl_call) (f : E -> A * E) : M A :=
  w <- get ;;
  let '(a, e') := f (engine w) in
  emit (EvRcl c) ;;;
  modify (set_engine e') ;;;
  ret a.

(** [std::lock_guard] over a block: released when the block is left,
    normally or by an exception. *)
Definition lock_guard {A} (m : mutex) (body : M A) : M A :=
  emit (EvLock m) ;;;
  finally body (emit (EvUnlock m)).

(** [p.reset()] and the destruction of a [std::shared_ptr] that is not the
    handle: the reference is given up when the pointer is not null. *)
Definition shared_ptr_reset (h : holder) (p : option address) : M unit :=
  match p with
  | Some a => emit (EvRelease h a)
  | None => ret tt
  end.

(** Modelled from the spec: [rclcpp::exceptions::throw_from_rcl_error]
    (rclcpp/exceptions.hpp) is not under src/.  Section 7: a failed engine
    call becomes a typed error that "always carries the engine-reported
    diagnostic text and the operation name"; the return code it is raised
    for is kept with it. *)
Definition throw_from_rcl_error {A} (ret : rcl_ret_t) (prefix : string) : M A :=
  w <- get ;;
  throw (RCLError ret prefix (rcl_get_error_string api (engine w))).

(** What a [user_data] pointer points to in [w]; [None] for the null
    pointer, for an empty [std::function] and for the local
    [new_callback] outside its lifetime. *)
Definition pointee (w : world) (p : pointer) : option on_reset_fn :=
  match p with
  | nullptr => None
  | addr_new_callback => new_callback_local w
  | addr_on_reset_callback_ => on_reset_callback_ w
  end.

(** ** The handle's deleter (lines 45-60) *)

Definition timer_deleter (clock rcl_context : option address) (timer : address)
  : M unit :=
  match clock with
  | None => undefined            (* clock->get_clock_mutex() on null *)
  | Some c =>
      lock_guard (clock_mutex c)
        (r <- rcl_invoke (call_timer_fini timer)
                (fun e => rcl_timer_fini api e timer) ;;
         if failed r then
           w <- get ;;
           emit (EvLogError "rclcpp"
                   [Text "Failed to clean up rcl timer handle: ";
                    Text (rcl_get_error_string api (engine w))]) ;;;
           emit EvResetError ;;;
           modify (fun w => set_engine (rcl_reset_error api (engine w)) w)
         else ret tt) ;;;
      emit (EvDelete timer) ;;;
      shared_ptr_reset deleter_clock clock ;;;
      shared_ptr_reset deleter_rcl_context rcl_context
  end.

(** Destruction of the member [timer_handle_]: the owner count drops, and
    the last owner runs the deleter on the managed pointer. *)
Definition release_timer_handle_ : M unit :=
  w <- get ;;
  match timer_handle_ w, handle_block w with
  | Some t, Some b =>
      emit (EvRelease member_timer_handle_ t) ;;;
      modify (set_timer_handle_ None) ;;;
      if (use_count b <=? 1)%nat then
        modify (set_handle_block None) ;;;
        timer_deleter (captured_clock b) (captured_rcl_context b) (managed b)
      else
        modify (set_handle_block
                  (Some {| use_count := pred (use_count b);
                           managed := managed b;
                           captured_clock := captured_clock b;
                           captured_rcl_context := captured_rcl_context b |}))
  | _, _ => ret tt
  end.

(** Destruction of the members once a constructor or destructor body is
    left: [timer_handle_] before [clock_], the reverse of the order of the
    member initializers of line 36.  [on_reset_callback_] and
    [callback_mutex_] hold nothing by then on every path of this file. *)
Definition destroy_members : M unit :=
  release_timer_handle_ ;;;
  w <- get ;;
  shared_ptr_reset member_clock_ (clock_ w) ;;;
  modify (set_clock_ None).

(** ** TimerBase::TimerBase (lines 32-74) *)

(** The member initializers (line 36; [on_reset_callback_] starts empty,
    as every [std::function] does) and the constructor's body.  [storage]
    is the address [new rcl_timer_t] returns.  The deleter is attached to
    the handle at line 44, with [clock] and [rcl_context] captured by
    copy; the engine initializes the record at line 67, under the clock's
    mutex.  The local [rcl_context] is given up when the body is left. *)
Definition TimerBase_body (clock : address) (period : int64_t)
    (context : option address) (storage : address) : M unit :=
  modify (set_clock_ (Some clock)) ;;;
  modify (set_timer_handle_ None) ;;;
  modify (set_on_reset_callback_ None) ;;;
  let context :=
    match context with
    | None => get_global_default_context api
    | Some c => c
    end in
  let rcl_context := get_rcl_context api context in
  finally
    (emit (EvNew storage) ;;;
     modify (set_handle_block
               (Some {| use_count := 1; managed := storage;
                        captured_clock := Some clock;
                        captured_rcl_context := rcl_context |})) ;;;
     modify (set_timer_handle_ (Some storage)) ;;;
     modify (fun w =>
       set_engine (write_zero_initialized_timer api (engine w) (timer_handle_ w)) w) ;;;
     let clock_handle := get_clock_handle api clock in
     lock_guard (clock_mutex clock)
       (w <- get ;;
        r <- rcl_invoke
               (call_timer_init (timer_handle_ w) clock_handle rcl_context period)
               (fun e => rcl_timer_init api e (timer_handle_ w) clock_handle
                           rcl_context period) ;;
        if failed r then
          throw_from_rcl_error r "Couldn't initialize rcl timer handle"
        else ret tt))
    (shared_ptr_reset local_rcl_context rcl_context).

(** The constructor: when its body throws, the members constructed so far
    are destroyed before the exception reaches the caller. *)
Definition TimerBase (clock : address) (period : int64_t)
    (context : option address) (storage : address) : M unit :=
  on_throw (TimerBase_body clock period context storage)
    (fun e => destroy_members ;;; throw e).

(** ** State queries and mutations (lines 81-143) *)

Definition cancel : M unit :=
  w <- get ;;
  r <- rcl_invoke (call_timer_cancel (timer_handle_ w))
         (fun e => rcl_timer_cancel api e (timer_handle_ w)) ;;
  if failed r then throw_from_rcl_error r "Couldn't cancel timer"
  else ret tt.

Definition is_canceled : M bool :=
  w <- get ;;
  let is_canceled := false in
  p <- rcl_invoke (call_timer_is_canceled (timer_handle_ w))
         (fun e => rcl_timer_is_canceled api e (timer_handle_ w) is_canceled) ;;
  let '(r, is_canceled) := p in
  if failed r then throw_from_rcl_error r "Couldn't get timer cancelled state"
  else ret is_canceled.

Definition is_ready : M bool :=
  w <- get ;;
  let ready := false in
  p <- rcl_invoke (call_timer_is_ready (timer_handle_ w))
         (fun e => rcl_timer_is_ready api e (timer_handle_ w) ready) ;;
  let '(r, ready) := p in
  if failed r then throw_from_rcl_error r "Failed to check timer"
  else ret ready.

Definition time_until_trigger : M int64_t :=
  w <- get ;;
  let time_until_next_call := 0 in
  p <- rcl_invoke (call_timer_get_time_until_next_call (timer_handle_ w))
         (fun e => rcl_timer_get_time_until_next_call api e (timer_handle_ w)
                     time_until_next_call) ;;
  let '(r, time_until_next_call) := p in
  if r =? RCL_RET_TIMER_CANCELED then ret nanoseconds_max
  else if failed r then
    throw_from_rcl_error r "Timer could not get time until next call"
  else ret time_until_next_call.

(** A further owner of the handle. *)
Definition get_timer_handle : M (option address) :=
  w <- get ;;
  match timer_handle_ w, handle_block w with
  | Some t, Some b =>
      modify (set_handle_block
                (Some {| use_count := S (use_count b);
                         managed := managed b;
                         captured_clock := captured_clock b;
                         captured_rcl_context := captured_rcl_context b |})) ;;;
      ret (Some t)
  | _, _ => ret None
  end.

(** ** The on-reset callback (lines 151-219) *)

(** The adapter [new_callback] (lines 160-178): the user callback inside
    a try block with a handler for [std::exception] and a catch-all. *)
Definition new_callback (callback : user_fn) (this : address)
    (reset_calls : size_t) : M unit :=
  w <- get ;;
  let '(thrown, u') := callback reset_calls (user w) in
  emit (EvUserCallback reset_calls) ;;;
  modify (set_user u') ;;;
  match thrown with
  | None => ret tt
  | Some (throw_std type_name what) =>
      emit (EvLogError "rclcpp"
              [Text "rclcpp::TimerBase@"; Ptr this; Text " caught ";
               Text type_name;
               Text " exception in user-provided callback for the 'on reset' callback: ";
               Text what])
  | Some throw_other =>
      emit (EvLogError "rclcpp"
              [Text "rclcpp::TimerBase@"; Ptr this;
               Text " caught unhandled exception in user-provided callback ";
               Text "for the 'on reset' callback"])
  end.

Definition invoke (f : on_reset_fn) (n : size_t) : M unit :=
  match f with
  | NewCallback callback this => new_callback callback this n
  end.

(** Modelled from the spec: [rclcpp::detail::cpp_callback_trampoline]
    (rclcpp/detail/cpp_callback_trampoline.hpp) is not under src/.
    Section 3: "a raw pointer to it is registered with the native engine
    so the engine can invoke it by address".  The trampoline instantiated
    for a type calls the object of that type its [user_data] points to;
    calling an empty [std::function] throws, and a pointer to anything
    else is not a pointer the engine was given for it. *)
Definition cpp_callback_trampoline (f : rcl_event_callback_t)
    (user_data : pointer) (n : size_t) : M unit :=
  w <- get ;;
  match f, user_data with
  | trampoline_new_callback, addr_new_callback =>
      match new_callback_local w with
      | Some g => invoke g n
      | None => undefined
      end
  | trampoline_on_reset_callback_, addr_on_reset_callback_ =>
      match on_reset_callback_ w with
      | Some g => invoke g n
      | None => throw bad_function_call
      end
  | _, _ => undefined
  end.

(** TimerBase::reset (lines 101-112).  The engine may fire the registered
    callback during [rcl_timer_reset] (spec, section 2). *)
Definition reset : M unit :=
  r <- lock_guard callback_mutex_
         (w <- get ;;
          p <- rcl_invoke (call_timer_reset (timer_handle_ w))
                 (fun e => rcl_timer_reset api e (timer_handle_ w)) ;;
          let '(r, fired) := p in
          match fired with
          | Some (f, user_data, n) => cpp_callback_trampoline f user_data n
          | None => ret tt
          end ;;;
          ret r) ;;
  if failed r then throw_from_rcl_error r "Couldn't reset timer"
  else ret tt.

(** The overload of [set_on_reset_callback] that takes the engine-side
    function pointer and the user data pointer (lines 211-219). *)
Definition set_on_reset_callback_ptr (callback : option rcl_event_callback_t)
    (user_data : pointer) : M unit :=
  w <- get ;;
  r <- rcl_invoke
         (call_timer_set_on_reset_callback (timer_handle_ w) callback user_data
            (pointee w user_data))
         (fun e => rcl_timer_set_on_reset_callback api e (timer_handle_ w)
                     callback user_data) ;;
  if failed r then
    throw_from_rcl_error r "Failed to set timer on reset callback"
  else ret tt.

(** [on_reset_callback_ = f]: the stored callable is replaced, which
    destroys the old one. *)
Definition assign_on_reset_callback_ (f : option on_reset_fn) : M unit :=
  w <- get ;;
  emit (EvAssignCallback (on_reset_callback_ w) f) ;;;
  modify (set_on_reset_callback_ f).

(** The overload of [set_on_reset_callback] that takes a [std::function]
    (lines 151-198); an empty [std::function] is [None]. *)
Definition set_on_reset_callback (callback : option user_fn) : M unit :=
  match callback with
  | None =>
      throw (invalid_argument
               "The callback passed to set_on_reset_callback is not callable.")
  | Some callback =>
      w <- get ;;
      modify (set_new_callback_local (Some (NewCallback callback (this w)))) ;;;
      finally
        (lock_guard callback_mutex_
           (set_on_reset_callback_ptr (Some trampoline_new_callback)
              addr_new_callback ;;;
            w <- get ;;
            assign_on_reset_callback_ (new_callback_local w) ;;;
            set_on_reset_callback_ptr (Some trampoline_on_reset_callback_)
              addr_on_reset_callback_))
        (modify (set_new_callback_local None))
  end.

(** TimerBase::clear_on_reset_callback (lines 200-209). *)
Definition clear_on_reset_callback : M unit :=
  lock_guard callback_mutex_
    (w <- get ;;
     match on_reset_callback_ w with
     | Some _ =>
         set_on_reset_callback_ptr None nullptr ;;;
         assign_on_reset_callback_ None
     | None => ret tt
     end).

(** TimerBase::~TimerBase (lines 76-79).  A destructor is [noexcept]: an
    exception that leaves its body ends the program.  After the body the
    members are destroyed. *)
Definition TimerBase_destructor : M unit :=
  on_throw clear_on_reset_callback (fun _ w => (Terminated, w, [])) ;;;
  destroy_members.

(** ** Reading a run *)

Definition result_of {A} (r : outcome A * world * list event) : outcome A :=
  fst (fst r).
Definition world_of {A} (r : outcome A * world * list event) : world :=
  snd (fst r).
Definition trace_of {A} (r : outcome A * world * list event) : list event :=
  snd r.

End Model.

(** ** A reference engine

    A small engine with the shape of rcl's timer, used to run the model on
    concrete inputs.  Every call takes its return code from [script] (and
    succeeds once the script is exhausted); a successful registration
    stores the pair it is given, and a successful reset fires the stored
    pair with count 1. *)

Record ref_engine : Type := {
  script : list rcl_ret_t;
  registered : option (rcl_event_callback_t * pointer);
  canceled : bool;
  error_string : string
}.

Definition ref_step (e : ref_engine) : rcl_ret_t * ref_engine :=
  match script e with
  | [] => (RCL_RET_OK, e)
  | r :: s =>
      (r, {| script := s; registered := registered e; canceled := canceled e;
             error_string := error_string e |})
  end.

Definition ref_set_canceled (b : bool) (e : ref_engine) : ref_engine :=
  {| script := script e; registered := registered e; canceled := b;
     error_string := error_string e |}.

Definition ref_set_registered (p : option (rcl_event_callback_t * pointer))
    (e : ref_engine) : ref_engine :=
  {| script := script e; registered := p; canceled := canceled e;
     error_string := error_string e |}.

Definition ref_rcl : rcl ref_engine := {|
  write_zero_initialized_timer := fun e _ => e;
  rcl_timer_init := fun e _ _ _ _ => ref_step e;
  rcl_timer_fini := fun e _ => ref_step e;
  rcl_timer_cancel := fun e _ =>
    let '(r, e1) := ref_step e in
    if failed r then (r, e1) else (r, ref_set_canceled true e1);
  rcl_timer_is_canceled := fun e _ cell =>
    let '(r, e1) := ref_step e in
    if failed r then (r, cell, e1) else (r, canceled e1, e1);
  rcl_timer_reset := fun e _ =>
    let '(r, e1) := ref_step e in
    if failed r then (r, None, e1)
    else
      (r,
       match registered e1 with
       | Some (f, p) => Some (f, p, 1)
       | None => None
       end,
       ref_set_canceled false e1);
  rcl_timer_is_ready := fun e _ cell =>
    let '(r, e1) := ref_step e in
    if failed r then (r, cell, e1) else (r, negb (canceled e1), e1);
  rcl_timer_get_time_until_next_call := fun e _ cell =>
    let '(r, e1) := ref_step e in
    if failed r then (r, cell, e1)
    else if canceled e1 then (RCL_RET_TIMER_CANCELED, cell, e1)
    else (r, 1000, e1);
  rcl_timer_set_on_reset_callback := fun e _ f p =>
    let '(r, e1) := ref_step e in
    if failed r then (r, e1)
    else
      (r,
       ref_set_registered
         match f with
         | Some g => Some (g, p)
         | None => None
         end e1);
  rcl_get_error_string := error_string;
  rcl_reset_error := fun e =>
    {| script := script e; registered := registered e; canceled := canceled e;
       error_string := EmptyString |};
  get_global_default_context := 7;
  get_rcl_context := fun c => Some (c + 1);
  get_clock_handle := fun c => c + 100
|}.

(** An engine whose next calls return the codes of [s]. *)
Definition ref_engine_with (s : list rcl_ret_t) : ref_engine :=
  {| script := s; registered := None; canceled := false;
     error_string := "timer failure" |}.

(** The storage of a timer object at address [a] before its constructor
    has run; the user state is the list of counts the user callbacks have
    received. *)
Definition raw_world (e : ref_engine) (a : address) : @world ref_engine (list size_t) :=
  {| engine := e; user := []; this := a; clock_ := None; timer_handle_ := None;
     on_reset_callback_ := None; handle_block := None;
     new_callback_local := None |}.

(** User callbacks: one that records its argument, one that throws a
    [std::runtime_error], one that throws something else. *)
Definition recording_callback : @user_fn (list size_t) :=
  fun n u => (None, n :: u).
Definition throwing_callback : @user_fn (list size_t) :=
  fun n u => (Some (throw_std "std::runtime_error" "boom"), n :: u).
Definition throwing_int_callback : @user_fn (list size_t) :=
  fun n u => (Some throw_other, n :: u).

(** An engine that holds the registration of [on_reset_callback_]. *)
Definition ref_engine_registered (s : list rcl_ret_t) : ref_engine :=
  {| script := s;
     registered := Some (trampoline_on_reset_callback_, addr_on_reset_callback_);
     canceled := false;
     error_string := "timer failure" |}.

(** The timer at address 4096 that a successful construction on clock 5
    with storage 64 leaves, holding [slot] as its stored callable. *)
Definition timer_world (e : ref_engine)
    (slot : option (@on_reset_fn (list size_t)))
  : @world ref_engine (list size_t) :=
  {| engine := e; user := []; this := 4096; clock_ := Some 5;
     timer_handle_ := Some 64; on_reset_callback_ := slot;
     handle_block :=
       Some {| use_count := 1; managed := 64; captured_clock := Some 5;
               captured_rcl_context := Some 8 |};
     new_callback_local := None |}.

(** A construction whose [rcl_timer_init] returns the failure code 1. *)
Definition failed_construction :=
  TimerBase ref_rcl 5 1000 None 64 (raw_world (ref_engine_with [1]) 4096).

(** ** Classifying events *)

Definition is_rcl_call {U} (ev : @event U) : bool :=
  match ev with
  | EvRcl _ => true
  | _ => false
  end.

Definition is_release {U} (ev : @event U) : bool :=
  match ev with
  | EvRelease _ _ => true
  | _ => false
  end.

Definition is_fini_call {U} (ev : @event U) : bool :=
  match ev with
  | EvRcl (call_timer_fini _) => true
  | _ => false
  end.

(** Events of the handle's teardown: the member giving up the handle, the
    engine's finalization, the release of the native memory. *)
Definition touches_handle {U} (ev : @event U) : bool :=
  match ev with
  | EvRelease _ _ => true
  | EvRcl (call_timer_fini _) => true
  | EvDelete _ => true
  | _ => false
  end.

(** Number of engine calls in a trace. *)
Definition rcl_calls {U} (t : list (@event U)) : nat :=
  List.length (filter is_rcl_call t).

(** The callback the engine fires, if any, is one the trampoline can
    call in [w]: the pair that was registered for a live callable. *)
Definition fires_callable {E U} (w : @world E U) (fired : option firing) : bool :=
  match fired with
  | None => true
  | Some (trampoline_new_callback, addr_new_callback, _) =>
      match new_callback_local w with Some _ => true | None => false end
  | Some (trampoline_on_reset_callback_, addr_on_reset_callback_, _) =>
      match on_reset_callback_ w with Some _ => true | None => false end
  | Some _ => false
  end.

(** The log record of the adapter for what the user callback threw. *)
Definition adapter_log {U} (this : address) (thrown : option user_throw)
  : list (@event U) :=
  match thrown with
  | None => []
  | Some (throw_std type_name what) =>
      [EvLogError "rclcpp"
         [Text "rclcpp::TimerBase@"; Ptr this; Text " caught ";
          Text type_name;
          Text " exception in user-provided callback for the 'on reset' callback: ";
          Text what]]
  | Some throw_other =>
      [EvLogError "rclcpp"
         [Text "rclcpp::TimerBase@"; Ptr this;
          Text " caught unhandled exception in user-provided callback ";
          Text "for the 'on reset' callback"]]
  end.

(** Events of the callback protocol: a registration with the engine, a
    change of the stored callable. *)
Definition touches_callback {U} (ev : @event U) : bool :=
  match ev with
  | EvRcl (call_timer_set_on_reset_callback _ _ _ _) => true
  | EvAssignCallback _ _ => true
  | _ => false
  end.

(** The events of one run of the handle's deleter, given the code [r] the
    engine's finalization returned and the error string [err] it left. *)
Definition deleter_trace {U} (c : address) (x : option address)
    (timer : address) (r : rcl_ret_t) (err : string) : list (@event U) :=
  [EvLock (clock_mutex c); EvRcl (call_timer_fini timer)] ++
  (if failed r
   then [EvLogError "rclcpp"
           [Text "Failed to clean up rcl timer handle: "; Text err];
         EvResetError]
   else []) ++
  [EvUnlock (clock_mutex c); EvDelete timer; EvRelease deleter_clock c] ++
  match x with
  | Some a => [EvRelease deleter_rcl_context a]
  | None => []
  end.

(** What a firing of a callable pair does: the events, and the user's
    state afterwards. *)
Definition firing_trace {E U} (w : @world E U) (fired : option firing)
  : list (@event U) :=
  match fired with
  | Some (_, p, n) =>
      match pointee w p with
      | Some (NewCallback callback a) =>
          EvUserCallback n :: adapter_log a (fst (callback n (user w)))
      | None => []
      end
  | None => []
  end.

Definition firing_user {E U} (w : @world E U) (fired : option firing) : U :=
  match fired with
  | Some (_, p, n) =>
      match pointee w p with
      | Some (NewCallback callback _) => snd (callback n (user w))
      | None => user w
      end
  | None => user w
  end.

(** The event of a shared pointer giving up what it holds. *)
Definition release_events {U} (h : holder) (p : option address)
  : list (@event U) :=
  match p with
  | Some a => [EvRelease h a]
  | None => []
  end.

(** ** The wait-set flag (lines 145-149)

    [exchange_in_use_by_wait_set_state] is [std::atomic<bool>::exchange]
    on the member [in_use_by_wait_set_]: it yields the value the flag
    held and leaves [in_use_state] in it.  The flag is independent of the
    rest of the object and is kept apart from [world]. *)
Definition exchange_in_use_by_wait_set_state (in_use_state : bool)
    (in_use_by_wait_set_ : bool) : bool * bool :=
  (in_use_by_wait_set_, in_use_state).

(** Atomic exchanges by several callers, in the order in which they take
    effect: the values returned, and the flag at the end. *)
Fixpoint exchanges (in_use_states : list bool) (in_use_by_wait_set_ : bool)
  : list bool * bool :=
  match in_use_states with
  | [] => ([], in_use_by_wait_set_)
  | s :: rest =>
      let '(previous, flag) :=
        exchange_in_use_by_wait_set_state s in_use_by_wait_set_ in
      let '(returned, final) := exchanges rest flag in
      (previous :: returned, final)
  end.

(** ** Sequences of operations

    The operations a holder of a constructed timer may call, and a caller
    that invokes them one after the other, going on after an operation
    that threw and stopping when one ends the program. *)
Inductive operation (U : Type) : Type :=
| op_cancel
| op_is_canceled
| op_reset
| op_is_ready
| op_time_until_trigger
| op_set_on_reset_callback (callback : option (@user_fn U))
| op_clear_on_reset_callback.

Arguments op_cancel {U}.
Arguments op_is_canceled {U}.
Arguments op_reset {U}.
Arguments op_is_ready {U}.
Arguments op_time_until_trigger {U}.
Arguments op_set_on_reset_callback {U}.
Arguments op_clear_on_reset_callback {U}.

Definition run_operation {E U} (api : rcl E) (o : operation U)
  : @M E U unit :=
  match o with
  | op_cancel => cancel api
  | op_is_canceled => bind (is_canceled api) (fun _ => ret tt)
  | op_reset => reset api
  | op_is_ready => bind (is_ready api) (fun _ => ret tt)
  | op_time_until_trigger => bind (time_until_trigger api) (fun _ => ret tt)
  | op_set_on_reset_callback callback => set_on_reset_callback api callback
  | op_clear_on_reset_callback => clear_on_reset_callback api
  end.

Fixpoint run_operations {E U} (api : rcl E) (ops : list (operation U))
    (w : @world E U) : @world E U * list (@event U) :=
  match ops with
  | [] => (w, [])
  | o :: rest =>
      let '(r, w1, t1) := run_operation api o w in
      match r with
      | Returned _ | Thrown _ =>
          let '(w2, t2) := run_operations api rest w1 in (w2, t1 ++ t2)
      | Terminated | Undefined => (w1, t1)
      end
  end.

(** ** Invariants and disciplines *)

(** The members that tie the object to its clock and its native timer. *)
Definition same_handle {E U} (w w' : @world E U) : Prop :=
  this w' = this w /\
  clock_ w' = clock_ w /\
  timer_handle_ w' = timer_handle_ w /\
  handle_block w' = handle_block w.

(** The stored callable, if any, is an adapter that captured the address
    of this very timer. *)
Definition callback_bound {E U} (w : @world E U) : Prop :=
  match on_reset_callback_ w with
  | Some (NewCallback _ a) => a = this w
  | None => True
  end.

(** A registration hands the engine either nothing (null function
    pointer, null user data), or a trampoline together with the address
    of an object of the trampoline's type that holds a callable when the
    call is made. *)
Definition registration_ok {U} (ev : @event U) : bool :=
  match ev with
  | EvRcl (call_timer_set_on_reset_callback _ None nullptr None) => true
  | EvRcl (call_timer_set_on_reset_callback _
             (Some trampoline_new_callback) addr_new_callback (Some _)) => true
  | EvRcl (call_timer_set_on_reset_callback _
             (Some trampoline_on_reset_callback_) addr_on_reset_callback_
             (Some _)) => true
  | EvRcl (call_timer_set_on_reset_callback _ _ _ _) => false
  | _ => true
  end.

(** The events an operation on a constructed timer may emit: the callback
    lock, engine calls other than initialization and finalization, the
    adapter's log, a change of the stored callable, a user callback. *)
Definition operation_event {U} (ev : @event U) : bool :=
  match ev with
  | EvLock callback_mutex_ | EvUnlock callback_mutex_ => true
  | EvRcl (call_timer_init _ _ _ _) | EvRcl (call_timer_fini _) => false
  | EvRcl _ => true
  | EvLogError _ _ | EvAssignCallback _ _ | EvUserCallback _ => true
  | _ => false
  end.

Definition is_new {U} (ev : @event U) : bool :=
  match ev with
  | EvNew _ => true
  | _ => false
  end.

Definition is_delete {U} (ev : @event U) : bool :=
  match ev with
  | EvDelete _ => true
  | _ => false
  end.

Definition is_user_callback {U} (ev : @event U) : bool :=
  match ev with
  | EvUserCallback _ => true
  | _ => false
  end.

Definition mutex_eqb (a b : mutex) : bool :=
  match a, b with
  | clock_mutex c, clock_mutex d => c =? d
  | callback_mutex_, callback_mutex_ => true
  | _, _ => false
  end.

(** The locks held after a trace, innermost first, starting from [held].
    [None] when the trace breaks the discipline: the clock's mutex (a
    [std::mutex]) locked while already held, or an unlock of a mutex that
    is not the innermost one held.  [callback_mutex_] is recursive. *)
Fixpoint locks_held {U} (t : list (@event U)) (held : list mutex)
  : option (list mutex) :=
  match t with
  | [] => Some held
  | EvLock (clock_mutex c) :: t' =>
      if existsb (mutex_eqb (clock_mutex c)) held then None
      else locks_held t' (clock_mutex c :: held)
  | EvLock callback_mutex_ :: t' => locks_held t' (callback_mutex_ :: held)
  | EvUnlock m :: t' =>
      match held with
      | h :: held' => if mutex_eqb h m then locks_held t' held' else None
      | [] => None
      end
  | _ :: t' => locks_held t' held
  end.

(** What a run of an operation from [w] keeps: the handle and the clock,
    the binding of the stored callable, the local adapter dead; it emits
    only events of operations and well-formed registrations; and unless
    it ran into undefined behaviour it holds no more locks at its end
    than at its start. *)
Definition keeps {E U} (w : @world E U)
    (run : outcome unit * @world E U * list (@event U)) : Prop :=
  same_handle w (world_of run) /\
  (callback_bound w -> callback_bound (world_of run)) /\
  (new_callback_local w = None -> new_callback_local (world_of run) = None) /\
  forallb operation_event (trace_of run) = true /\
  forallb registration_ok (trace_of run) = true /\
  (result_of run <> Undefined ->
   forall held, locks_held (trace_of run) held = Some held).

(** * Properties *)

Section Properties.

Context {E U : Type}.
Variable api : rcl E.

#[local] Abbreviation world := (@world E U).
#[local] Abbreviation event := (@event U).

Ltac unfold_run :=
  unfold result_of, world_of, trace_of.

Ltac unfold_monad :=
  unfold lock_guard, rcl_invoke, throw_from_rcl_error, shared_ptr_reset,
    finally, on_throw, bind, ret, get, modify, emit, throw, undefined.

(** *** State queries *)

Lemma cancel_run (w : world) :
  cancel api w =
  let '(r, e1) := rcl_timer_cancel api (engine w) (timer_handle_ w) in
  (if failed r
   then Thrown (RCLError r "Couldn't cancel timer" (rcl_get_error_string api e1))
   else Returned tt,
   set_engine e1 w,
   [EvRcl (call_timer_cancel (timer_handle_ w))]).
Proof.
  unfold cancel. unfold_monad.
  destruct (rcl_timer_cancel api (engine w) (timer_handle_ w)) as [r e1].
  cbn. destruct (failed r); reflexivity.
Qed.

Lemma is_canceled_run (w : world) :
  is_canceled api w =
  let '(r, b, e1) := rcl_timer_is_canceled api (engine w) (timer_handle_ w) false in
  (if failed r
   then Thrown (RCLError r "Couldn't get timer cancelled state"
                  (rcl_get_error_string api e1))
   else Returned b,
   set_engine e1 w,
   [EvRcl (call_timer_is_canceled (timer_handle_ w))]).
Proof.
  unfold is_canceled. unfold_monad.
  destruct (rcl_timer_is_canceled api (engine w) (timer_handle_ w) false)
    as [[r b] e1].
  cbn. destruct (failed r); reflexivity.
Qed.

Lemma is_ready_run (w : world) :
  is_ready api w =
  let '(r, b, e1) := rcl_timer_is_ready api (engine w) (timer_handle_ w) false in
  (if failed r
   then Thrown (RCLError r "Failed to check timer" (rcl_get_error_string api e1))
   else Returned b,
   set_engine e1 w,
   [EvRcl (call_timer_is_ready (timer_handle_ w))]).
Proof.
  unfold is_ready. unfold_monad.
  destruct (rcl_timer_is_ready api (engine w) (timer_handle_ w) false)
    as [[r b] e1].
  cbn. destruct (failed r); reflexivity.
Qed.

Lemma time_until_trigger_run (w : world) :
  time_until_trigger api w =
  let '(r, t, e1) :=
    rcl_timer_get_time_until_next_call api (engine w) (timer_handle_ w) 0 in
  (if r =? RCL_RET_TIMER_CANCELED then Returned nanoseconds_max
   else if failed r
   then Thrown (RCLError r "Timer could not get time until next call"
                  (rcl_get_error_string api e1))
   else Returned t,
   set_engine e1 w,
   [EvRcl (call_timer_get_time_until_next_call (timer_handle_ w))]).
Proof.
  unfold time_until_trigger. unfold_monad.
  destruct (rcl_timer_get_time_until_next_call api (engine w) (timer_handle_ w) 0)
    as [[r t] e1].
  cbn. destruct (r =? RCL_RET_TIMER_CANCELED); [reflexivity|].
  destruct (failed r); reflexivity.
Qed.

(** *** The adapter and the trampoline *)

Lemma new_callback_run (callback : user_fn) (a : address) (n : size_t) (w : world) :
  new_callback callback a n w =
  (Returned tt,
   set_user (snd (callback n (user w))) w,
   EvUserCallback n :: adapter_log a (fst (callback n (user w)))).
Proof.
  unfold new_callback. unfold_monad.
  destruct (callback n (user w)) as [thrown u1]. cbn.
  destruct thrown as [[ty what|]|]; reflexivity.
Qed.

Lemma cpp_callback_trampoline_run (f : rcl_event_callback_t) (p : pointer)
    (n : size_t) (w : world) (g : on_reset_fn) :
  fires_callable w (Some (f, p, n)) = true ->
  pointee w p = Some g ->
  cpp_callback_trampoline f p n w = invoke g n w.
Proof.
  unfold fires_callable, pointee, cpp_callback_trampoline. unfold_monad.
  destruct f, p; try discriminate; intros _ H; rewrite H; cbn;
    destruct (invoke g n w) as [[o w1] t]; destruct o; reflexivity.
Qed.

(** *** Registration with the engine *)

Lemma set_on_reset_callback_ptr_run (f : option rcl_event_callback_t)
    (p : pointer) (w : world) :
  set_on_reset_callback_ptr api f p w =
  let '(r, e1) :=
    rcl_timer_set_on_reset_callback api (engine w) (timer_handle_ w) f p in
  (if failed r
   then Thrown (RCLError r "Failed to set timer on reset callback"
                  (rcl_get_error_string api e1))
   else Returned tt,
   set_engine e1 w,
   [EvRcl (call_timer_set_on_reset_callback (timer_handle_ w) f p (pointee w p))]).
Proof.
  unfold set_on_reset_callback_ptr. unfold_monad.
  destruct (rcl_timer_set_on_reset_callback api (engine w) (timer_handle_ w) f p)
    as [r e1].
  cbn. destruct (failed r); reflexivity.
Qed.

(** The three outcomes of an installation: the first registration fails,
    the second one fails, both succeed. *)
Lemma set_on_reset_callback_run (callback : user_fn) (w : world) :
  let nc := NewCallback callback (this w) in
  let h := timer_handle_ w in
  let reg1 :=
    rcl_timer_set_on_reset_callback api (engine w) h
      (Some trampoline_new_callback) addr_new_callback in
  let reg2 :=
    rcl_timer_set_on_reset_callback api (snd reg1) h
      (Some trampoline_on_reset_callback_) addr_on_reset_callback_ in
  let ev1 :=
    EvRcl (call_timer_set_on_reset_callback h (Some trampoline_new_callback)
             addr_new_callback (Some nc)) in
  let ev2 :=
    EvRcl (call_timer_set_on_reset_callback h (Some trampoline_on_reset_callback_)
             addr_on_reset_callback_ (Some nc)) in
  set_on_reset_callback api (Some callback) w =
  if failed (fst reg1) then
    (Thrown (RCLError (fst reg1) "Failed to set timer on reset callback"
               (rcl_get_error_string api (snd reg1))),
     set_new_callback_local None (set_engine (snd reg1) w),
     [EvLock callback_mutex_; ev1; EvUnlock callback_mutex_])
  else
    (if failed (fst reg2)
     then Thrown (RCLError (fst reg2) "Failed to set timer on reset callback"
                    (rcl_get_error_string api (snd reg2)))
     else Returned tt,
     set_new_callback_local None
       (set_on_reset_callback_ (Some nc) (set_engine (snd reg2) w)),
     [EvLock callback_mutex_; ev1;
      EvAssignCallback (on_reset_callback_ w) (Some nc);
      ev2; EvUnlock callback_mutex_]).
Proof.
  destruct w as [e u a c t s b l].
  unfold set_on_reset_callback, assign_on_reset_callback_.
  unfold lock_guard, finally, bind at 1 2 3 4.
  cbn -[set_on_reset_callback_ptr].
  rewrite set_on_reset_callback_ptr_run. cbn.
  destruct (rcl_timer_set_on_reset_callback api e t
              (Some trampoline_new_callback) addr_new_callback) as [r1 e1].
  cbn. destruct (failed r1); cbn; [reflexivity|].
  unfold_monad. cbn.
  destruct (rcl_timer_set_on_reset_callback api e1 t
              (Some trampoline_on_reset_callback_) addr_on_reset_callback_)
    as [r2 e2].
  cbn. destruct (failed r2); reflexivity.
Qed.

Lemma clear_on_reset_callback_run (w : world) :
  clear_on_reset_callback api w =
  match on_reset_callback_ w with
  | None =>
      (Returned tt, w, [EvLock callback_mutex_; EvUnlock callback_mutex_])
  | Some f =>
      let '(r, e1) :=
        rcl_timer_set_on_reset_callback api (engine w) (timer_handle_ w)
          None nullptr in
      if failed r then
        (Thrown (RCLError r "Failed to set timer on reset callback"
                   (rcl_get_error_string api e1)),
         set_engine e1 w,
         [EvLock callback_mutex_;
          EvRcl (call_timer_set_on_reset_callback (timer_handle_ w)
                   None nullptr None);
          EvUnlock callback_mutex_])
      else
        (Returned tt,
         set_on_reset_callback_ None (set_engine e1 w),
         [EvLock callback_mutex_;
          EvRcl (call_timer_set_on_reset_callback (timer_handle_ w)
                   None nullptr None);
          EvAssignCallback (Some f) None;
          EvUnlock callback_mutex_])
  end.
Proof.
  destruct w as [e u a c t s b l].
  unfold clear_on_reset_callback, assign_on_reset_callback_.
  unfold lock_guard, finally, bind at 1 2.
  cbn -[set_on_reset_callback_ptr].
  destruct s as [f|]; [|reflexivity].
  unfold bind. rewrite set_on_reset_callback_ptr_run. cbn.
  destruct (rcl_timer_set_on_reset_callback api e t None nullptr) as [r e1].
  cbn. destruct (failed r); reflexivity.
Qed.

(** *** reset *)

Lemma reset_run (w : world) :
  let '(r, fired, e1) := rcl_timer_reset api (engine w) (timer_handle_ w) in
  fires_callable w fired = true ->
  reset api w =
  (if failed r
   then Thrown (RCLError r "Couldn't reset timer" (rcl_get_error_string api e1))
   else Returned tt,
   set_user (firing_user w fired) (set_engine e1 w),
   [EvLock callback_mutex_; EvRcl (call_timer_reset (timer_handle_ w))] ++
   firing_trace w fired ++ [EvUnlock callback_mutex_]).
Proof.
  destruct (rcl_timer_reset api (engine w) (timer_handle_ w))
    as [[r fired] e1] eqn:Hr.
  intros Hf. destruct w as [e u a c t s b l]. cbn in Hr.
  unfold reset, lock_guard, finally, rcl_invoke, bind at 1 2 3 4 5 6 7.
  cbn -[cpp_callback_trampoline]. rewrite Hr. cbn -[cpp_callback_trampoline].
  destruct fired as [[[f p] n]|].
  - assert (Hp : exists g,
               pointee {| engine := e1; user := u; this := a; clock_ := c;
                          timer_handle_ := t; on_reset_callback_ := s;
                          handle_block := b; new_callback_local := l |} p
               = Some g).
    { destruct f, p; cbn in Hf |- *; try discriminate;
        [destruct l | destruct s]; try discriminate; eauto. }
    destruct Hp as [g Hp].
    unfold bind at 1.
    rewrite (cpp_callback_trampoline_run f p n _ g);
      [| destruct f, p; cbn in Hf |- *; assumption | exact Hp].
    unfold firing_trace, firing_user, pointee in *. cbn in Hp |- *.
    destruct g as [cb a']. cbn -[new_callback].
    rewrite new_callback_run. rewrite Hp. cbn.
    unfold_monad. cbn.
    destruct (failed r); cbn; rewrite ?app_nil_r; reflexivity.
  - unfold_monad. cbn. destruct (failed r); reflexivity.
Qed.

(** *** The deleter and the destruction of the members *)

Lemma timer_deleter_run (c : address) (x : option address) (timer : address)
    (w : world) :
  timer_deleter api (Some c) x timer w =
  let '(r, e1) := rcl_timer_fini api (engine w) timer in
  (Returned tt,
   set_engine (if failed r then rcl_reset_error api e1 else e1) w,
   deleter_trace c x timer r (rcl_get_error_string api e1)).
Proof.
  unfold timer_deleter, deleter_trace. unfold_monad.
  destruct (rcl_timer_fini api (engine w) timer) as [r e1].
  cbn. destruct (failed r); destruct x; reflexivity.
Qed.

Lemma destroy_members_no_callback_events (w : world) :
  existsb touches_callback (trace_of (destroy_members api w)) = false.
Proof.
  destruct w as [e u a c t s b l].
  unfold destroy_members, release_timer_handle_.
  unfold bind at 1 2. cbn -[timer_deleter].
  destruct t as [t|]; [destruct b as [b|]|].
  - unfold bind at 1 2 3. cbn -[timer_deleter].
    destruct (use_count b <=? 1)%nat.
    + unfold bind at 1. cbn -[timer_deleter].
      destruct (captured_clock b) as [k|].
      * rewrite timer_deleter_run. cbn.
        destruct (rcl_timer_fini api e (managed b)) as [r e1].
        unfold_run. unfold_monad. cbn.
        destruct c, (failed r), (captured_rcl_context b); reflexivity.
      * reflexivity.
    + unfold_run. unfold_monad. cbn. destruct c; reflexivity.
  - unfold_run. unfold_monad. cbn. destruct c; reflexivity.
  - unfold_run. unfold_monad. cbn. destruct c; reflexivity.
Qed.

(** *** The constructor *)

Lemma TimerBase_run (clock : address) (period : int64_t)
    (context : option address) (storage : address) (w : world) :
  let ctx :=
    match context with
    | None => get_global_default_context api
    | Some c => c
    end in
  let rc := get_rcl_context api ctx in
  let ch := get_clock_handle api clock in
  let e0 := write_zero_initialized_timer api (engine w) (Some storage) in
  let init := rcl_timer_init api e0 (Some storage) ch rc period in
  let fini := rcl_timer_fini api (snd init) storage in
  let attempt :=
    [EvNew storage; EvLock (clock_mutex clock);
     EvRcl (call_timer_init (Some storage) ch rc period);
     EvUnlock (clock_mutex clock)] ++ release_events local_rcl_context rc in
  TimerBase api clock period context storage w =
  if failed (fst init) then
    (Thrown (RCLError (fst init) "Couldn't initialize rcl timer handle"
               (rcl_get_error_string api (snd init))),
     {| engine := if failed (fst fini) then rcl_reset_error api (snd fini)
                  else snd fini;
        user := user w; this := this w; clock_ := None; timer_handle_ := None;
        on_reset_callback_ := None; handle_block := None;
        new_callback_local := new_callback_local w |},
     attempt ++
     [EvRelease member_timer_handle_ storage] ++
     deleter_trace clock rc storage (fst fini)
       (rcl_get_error_string api (snd fini)) ++
     [EvRelease member_clock_ clock])
  else
    (Returned tt,
     {| engine := snd init;
        user := user w; this := this w; clock_ := Some clock;
        timer_handle_ := Some storage; on_reset_callback_ := None;
        handle_block :=
          Some {| use_count := 1; managed := storage;
                  captured_clock := Some clock; captured_rcl_context := rc |};
        new_callback_local := new_callback_local w |},
     attempt).
Proof.
  destruct w as [e u a c t s b l].
  unfold TimerBase, TimerBase_body, destroy_members, release_timer_handle_.
  unfold on_throw, lock_guard, finally, rcl_invoke, bind at 1 2 3 4 5 6 7 8 9 10.
  cbn -[timer_deleter].
  destruct (rcl_timer_init api (write_zero_initialized_timer api e (Some storage))
              (Some storage) (get_clock_handle api clock)
              (get_rcl_context api
                 match context with
                 | Some c0 => c0
                 | None => get_global_default_context api
                 end) period) as [r e1].
  unfold_monad. cbn -[timer_deleter].
  destruct (failed r); cbn -[timer_deleter].
  - destruct (get_rcl_context api
                match context with
                | Some c0 => c0
                | None => get_global_default_context api
                end) as [x|]; cbn -[timer_deleter];
      rewrite timer_deleter_run; cbn;
      destruct (rcl_timer_fini api e1 storage) as [r2 e2]; cbn;
      unfold deleter_trace; destruct (failed r2); reflexivity.
  - destruct (get_rcl_context api
                match context with
                | Some c0 => c0
                | None => get_global_default_context api
                end) as [x|]; reflexivity.
Qed.

(** Whatever the engine fires, [reset] calls the engine once. *)
Lemma reset_engine_calls (w : world) :
  rcl_calls (trace_of (reset api w)) = 1%nat.
Proof.
  destruct w as [e u a c t s b l].
  unfold reset, cpp_callback_trampoline, invoke, new_callback.
  unfold_run. unfold_monad. cbn.
  destruct (rcl_timer_reset api e t) as [[r fired] e1]. cbn.
  destruct fired as [[[f p] n]|]; cbn.
  - destruct f, p; cbn; try reflexivity.
    + destruct l as [[cb a']|]; cbn; [|reflexivity].
      destruct (cb n u) as [[[ty what|]|] u1]; cbn;
        destruct (failed r); reflexivity.
    + destruct s as [[cb a']|]; cbn; [|reflexivity].
      destruct (cb n u) as [[[ty what|]|] u1]; cbn;
        destruct (failed r); reflexivity.
  - destruct (failed r); reflexivity.
Qed.

(** * The claims *)

(** C1.  The handle's deleter: under the clock's mutex it asks the engine
    to finalize the native record; a failure of that call is logged and
    the run still returns; then the native memory is released; and the
    captured references to the clock and the context are given up last.
    No reference is released before the memory is, and the engine's
    finalization precedes the release of the memory. *)
Theorem timer_deleter_finalizes_before_release
    (c : address) (x : option address) (timer : address) (w : world) :
  let fini := rcl_timer_fini api (engine w) timer in
  let run := timer_deleter api (Some c) x timer w in
  result_of run = Returned tt /\
  trace_of run =
    [EvLock (clock_mutex c); EvRcl (call_timer_fini timer)] ++
    (if failed (fst fini)
     then [EvLogError "rclcpp"
             [Text "Failed to clean up rcl timer handle: ";
              Text (rcl_get_error_string api (snd fini))];
           EvResetError]
     else []) ++
    [EvUnlock (clock_mutex c); EvDelete timer; EvRelease deleter_clock c] ++
    release_events deleter_rcl_context x /\
  exists pre post,
    trace_of run = pre ++ EvDelete timer :: post /\
    existsb is_fini_call pre = true /\
    existsb is_release pre = false /\
    forallb is_release post = true /\
    post = EvRelease deleter_clock c :: release_events deleter_rcl_context x.
Proof.
  cbn zeta. rewrite timer_deleter_run.
  destruct (rcl_timer_fini api (engine w) timer) as [r e1]. cbn.
  split; [reflexivity|]. split.
  - destruct (failed r), x; reflexivity.
  - exists ([EvLock (clock_mutex c); EvRcl (call_timer_fini timer)] ++
            (if failed r
             then [EvLogError "rclcpp"
                     [Text "Failed to clean up rcl timer handle: ";
                      Text (rcl_get_error_string api e1)];
                   EvResetError]
             else []) ++ [EvUnlock (clock_mutex c)]).
    exists (EvRelease deleter_clock c :: release_events deleter_rcl_context x).
    destruct (failed r), x; cbn; repeat split; reflexivity.
Qed.

(** C2.  Installing a callable: under the callback lock, the engine is
    first given the address of the local adapter, then the adapter is
    stored in [on_reset_callback_] (which destroys what was stored), then
    the engine is given the address of [on_reset_callback_].  The store
    happens only once the first registration has succeeded, and at the
    second registration [on_reset_callback_] already holds the new
    adapter. *)
Theorem set_on_reset_callback_two_phase (callback : user_fn) (w : world) :
  let nc := NewCallback callback (this w) in
  let h := timer_handle_ w in
  let reg1 :=
    rcl_timer_set_on_reset_callback api (engine w) h
      (Some trampoline_new_callback) addr_new_callback in
  let reg2 :=
    rcl_timer_set_on_reset_callback api (snd reg1) h
      (Some trampoline_on_reset_callback_) addr_on_reset_callback_ in
  let to_temporary :=
    EvRcl (call_timer_set_on_reset_callback h (Some trampoline_new_callback)
             addr_new_callback (Some nc)) in
  let store := EvAssignCallback (on_reset_callback_ w) (Some nc) in
  let to_slot :=
    EvRcl (call_timer_set_on_reset_callback h (Some trampoline_on_reset_callback_)
             addr_on_reset_callback_ (Some nc)) in
  let run := set_on_reset_callback api (Some callback) w in
  trace_of run =
    (if failed (fst reg1)
     then [EvLock callback_mutex_; to_temporary; EvUnlock callback_mutex_]
     else [EvLock callback_mutex_; to_temporary; store; to_slot;
           EvUnlock callback_mutex_]) /\
  on_reset_callback_ (world_of run) =
    (if failed (fst reg1) then on_reset_callback_ w else Some nc) /\
  result_of run =
    (if failed (fst reg1)
     then Thrown (RCLError (fst reg1) "Failed to set timer on reset callback"
                    (rcl_get_error_string api (snd reg1)))
     else if failed (fst reg2)
     then Thrown (RCLError (fst reg2) "Failed to set timer on reset callback"
                    (rcl_get_error_string api (snd reg2)))
     else Returned tt) /\
  engine (world_of run) = (if failed (fst reg1) then snd reg1 else snd reg2) /\
  new_callback_local (world_of run) = None.
Proof.
  cbn zeta. rewrite set_on_reset_callback_run.
  destruct (failed (fst (rcl_timer_set_on_reset_callback api (engine w)
                           (timer_handle_ w) (Some trampoline_new_callback)
                           addr_new_callback)));
    repeat split; reflexivity.
Qed.

(** C3, as the code has it.  When the engine fails to initialize the
    native record, construction throws the error built from the engine's
    return code and error string, and the object is left with no handle.
    The deleter was installed when the record was allocated, before the
    initialization was attempted: as the exception leaves the constructor
    the handle is destroyed and the deleter runs once on the failed
    record (engine finalization under the clock's mutex, then release of
    the memory, then of the captured references). *)
Theorem failed_construction_throws_and_finalizes
    (clock : address) (period : int64_t) (context : option address)
    (storage : address) (w : world) :
  let ctx :=
    match context with
    | None => get_global_default_context api
    | Some c => c
    end in
  let rc := get_rcl_context api ctx in
  let ch := get_clock_handle api clock in
  let e0 := write_zero_initialized_timer api (engine w) (Some storage) in
  let init := rcl_timer_init api e0 (Some storage) ch rc period in
  let fini := rcl_timer_fini api (snd init) storage in
  let run := TimerBase api clock period context storage w in
  failed (fst init) = true ->
  result_of run =
    Thrown (RCLError (fst init) "Couldn't initialize rcl timer handle"
              (rcl_get_error_string api (snd init))) /\
  timer_handle_ (world_of run) = None /\
  handle_block (world_of run) = None /\
  trace_of run =
    [EvNew storage; EvLock (clock_mutex clock);
     EvRcl (call_timer_init (Some storage) ch rc period);
     EvUnlock (clock_mutex clock)] ++
    release_events local_rcl_context rc ++
    [EvRelease member_timer_handle_ storage;
     EvLock (clock_mutex clock); EvRcl (call_timer_fini storage)] ++
    (if failed (fst fini)
     then [EvLogError "rclcpp"
             [Text "Failed to clean up rcl timer handle: ";
              Text (rcl_get_error_string api (snd fini))];
           EvResetError]
     else []) ++
    [EvUnlock (clock_mutex clock); EvDelete storage;
     EvRelease deleter_clock clock] ++
    release_events deleter_rcl_context rc ++
    [EvRelease member_clock_ clock] /\
  List.length (filter is_fini_call (trace_of run)) = 1%nat.
Proof.
  cbn zeta. intros Hfail. rewrite TimerBase_run. rewrite Hfail.
  unfold_run. cbn.
  destruct (get_rcl_context api
              match context with
              | Some c => c
              | None => get_global_default_context api
              end) as [x|];
    destruct (failed (fst (rcl_timer_fini api _ storage)));
    repeat split; reflexivity.
Qed.

(** C4.  [time_until_trigger]: the code RCL_RET_TIMER_CANCELED yields the
    largest duration and no error; any other code but RCL_RET_OK yields
    the error of this operation; RCL_RET_OK yields the value the engine
    left.  For the other operations the canceled code is a failure like
    any other. *)
Theorem time_until_trigger_canceled_is_not_an_error (w : world) :
  (let '(r, t, e1) :=
     rcl_timer_get_time_until_next_call api (engine w) (timer_handle_ w) 0 in
   result_of (time_until_trigger api w) =
     if r =? RCL_RET_TIMER_CANCELED then Returned nanoseconds_max
     else if r =? RCL_RET_OK then Returned t
     else Thrown (RCLError r "Timer could not get time until next call"
                    (rcl_get_error_string api e1))) /\
  (forall e1,
     rcl_timer_cancel api (engine w) (timer_handle_ w)
       = (RCL_RET_TIMER_CANCELED, e1) ->
     result_of (cancel api w) =
       Thrown (RCLError RCL_RET_TIMER_CANCELED "Couldn't cancel timer"
                 (rcl_get_error_string api e1))) /\
  (forall b e1,
     rcl_timer_is_canceled api (engine w) (timer_handle_ w) false
       = (RCL_RET_TIMER_CANCELED, b, e1) ->
     result_of (is_canceled api w) =
       Thrown (RCLError RCL_RET_TIMER_CANCELED
                 "Couldn't get timer cancelled state"
                 (rcl_get_error_string api e1))) /\
  (forall b e1,
     rcl_timer_is_ready api (engine w) (timer_handle_ w) false
       = (RCL_RET_TIMER_CANCELED, b, e1) ->
     result_of (is_ready api w) =
       Thrown (RCLError RCL_RET_TIMER_CANCELED "Failed to check timer"
                 (rcl_get_error_string api e1))) /\
  (forall fired e1,
     rcl_timer_reset api (engine w) (timer_handle_ w)
       = (RCL_RET_TIMER_CANCELED, fired, e1) ->
     fires_callable w fired = true ->
     result_of (reset api w) =
       Thrown (RCLError RCL_RET_TIMER_CANCELED "Couldn't reset timer"
                 (rcl_get_error_string api e1))).
Proof.
  split; [|split; [|split; [|split]]].
  - rewrite time_until_trigger_run.
    destruct (rcl_timer_get_time_until_next_call api (engine w)
                (timer_handle_ w) 0) as [[r t] e1].
    unfold_run. cbn. unfold failed.
    destruct (r =? RCL_RET_TIMER_CANCELED); [reflexivity|].
    destruct (r =? RCL_RET_OK); reflexivity.
  - intros e1 H. rewrite cancel_run, H. reflexivity.
  - intros b e1 H. rewrite is_canceled_run, H. reflexivity.
  - intros b e1 H. rewrite is_ready_run, H. reflexivity.
  - intros fired e1 H Hf. pose proof (reset_run w) as R.
    rewrite H in R. rewrite (R Hf). reflexivity.
Qed.

(** C5.  The adapter around the user callback returns whatever the user
    code throws; what was thrown is logged with the address of the timer
    and, for a [std::exception], its type and description.  When the
    engine fires the installed callback during [reset], [reset] succeeds
    or fails by the engine's return code alone.  The callable stored by a
    successful installation is this adapter, with the timer's own
    address. *)
Theorem on_reset_adapter_contains_user_exceptions
    (callback : user_fn) (a : address) (n : size_t) (w : world) :
  (result_of (new_callback callback a n w) = Returned tt /\
   trace_of (new_callback callback a n w) =
     EvUserCallback n ::
     match fst (callback n (user w)) with
     | None => []
     | Some (throw_std type_name what) =>
         [EvLogError "rclcpp"
            [Text "rclcpp::TimerBase@"; Ptr a; Text " caught ";
             Text type_name;
             Text " exception in user-provided callback for the 'on reset' callback: ";
             Text what]]
     | Some throw_other =>
         [EvLogError "rclcpp"
            [Text "rclcpp::TimerBase@"; Ptr a;
             Text " caught unhandled exception in user-provided callback ";
             Text "for the 'on reset' callback"]]
     end) /\
  (forall r e1,
     on_reset_callback_ w = Some (NewCallback callback a) ->
     rcl_timer_reset api (engine w) (timer_handle_ w) =
       (r, Some (trampoline_on_reset_callback_, addr_on_reset_callback_, n), e1) ->
     result_of (reset api w) =
       (if failed r
        then Thrown (RCLError r "Couldn't reset timer"
                       (rcl_get_error_string api e1))
        else Returned tt) /\
     trace_of (reset api w) =
       [EvLock callback_mutex_; EvRcl (call_timer_reset (timer_handle_ w))] ++
       trace_of (new_callback callback a n w) ++
       [EvUnlock callback_mutex_]) /\
  (result_of (set_on_reset_callback api (Some callback) w) = Returned tt ->
   on_reset_callback_ (world_of (set_on_reset_callback api (Some callback) w)) =
     Some (NewCallback callback (this w))).
Proof.
  split; [|split].
  - rewrite new_callback_run. unfold_run. cbn. split; [reflexivity|].
    destruct (fst (callback n (user w))) as [[ty what|]|]; reflexivity.
  - intros r e1 Hs Hr. pose proof (reset_run w) as R.
    rewrite Hr in R.
    assert (Hf : fires_callable w
                   (Some (trampoline_on_reset_callback_,
                          addr_on_reset_callback_, n)) = true)
      by (cbn; rewrite Hs; reflexivity).
    rewrite (R Hf), new_callback_run. unfold_run. cbn.
    rewrite Hs. split; reflexivity.
  - rewrite set_on_reset_callback_run.
    destruct (failed (fst (rcl_timer_set_on_reset_callback api (engine w)
                             (timer_handle_ w) (Some trampoline_new_callback)
                             addr_new_callback)));
      unfold_run; cbn; [discriminate | reflexivity].
Qed.

(** C6.  [cancel], [is_canceled], [is_ready] and [reset] each make one
    engine call.  On RCL_RET_OK they return (the value the engine left,
    for the queries); on any other code they throw the error of that
    operation, with the engine's error string. *)
Theorem state_operations_call_engine_once (w : world) :
  (let '(r, e1) := rcl_timer_cancel api (engine w) (timer_handle_ w) in
   trace_of (cancel api w) = [EvRcl (call_timer_cancel (timer_handle_ w))] /\
   result_of (cancel api w) =
     if r =? RCL_RET_OK then Returned tt
     else Thrown (RCLError r "Couldn't cancel timer"
                    (rcl_get_error_string api e1))) /\
  (let '(r, b, e1) :=
     rcl_timer_is_canceled api (engine w) (timer_handle_ w) false in
   trace_of (is_canceled api w) =
     [EvRcl (call_timer_is_canceled (timer_handle_ w))] /\
   result_of (is_canceled api w) =
     if r =? RCL_RET_OK then Returned b
     else Thrown (RCLError r "Couldn't get timer cancelled state"
                    (rcl_get_error_string api e1))) /\
  (let '(r, b, e1) :=
     rcl_timer_is_ready api (engine w) (timer_handle_ w) false in
   trace_of (is_ready api w) = [EvRcl (call_timer_is_ready (timer_handle_ w))] /\
   result_of (is_ready api w) =
     if r =? RCL_RET_OK then Returned b
     else Thrown (RCLError r "Failed to check timer"
                    (rcl_get_error_string api e1))) /\
  (let '(r, fired, e1) := rcl_timer_reset api (engine w) (timer_handle_ w) in
   rcl_calls (trace_of (reset api w)) = 1%nat /\
   (fires_callable w fired = true ->
    result_of (reset api w) =
      if r =? RCL_RET_OK then Returned tt
      else Thrown (RCLError r "Couldn't reset timer"
                     (rcl_get_error_string api e1)))).
Proof.
  split; [|split; [|split]].
  - rewrite cancel_run.
    destruct (rcl_timer_cancel api (engine w) (timer_handle_ w)) as [r e1].
    unfold_run. unfold failed. cbn.
    split; [reflexivity | destruct (r =? RCL_RET_OK); reflexivity].
  - rewrite is_canceled_run.
    destruct (rcl_timer_is_canceled api (engine w) (timer_handle_ w) false)
      as [[r b] e1].
    unfold_run. unfold failed. cbn.
    split; [reflexivity | destruct (r =? RCL_RET_OK); reflexivity].
  - rewrite is_ready_run.
    destruct (rcl_timer_is_ready api (engine w) (timer_handle_ w) false)
      as [[r b] e1].
    unfold_run. unfold failed. cbn.
    split; [reflexivity | destruct (r =? RCL_RET_OK); reflexivity].
  - pose proof (reset_run w) as R. pose proof (reset_engine_calls w) as C.
    destruct (rcl_timer_reset api (engine w) (timer_handle_ w))
      as [[r fired] e1].
    split; [exact C|]. intros Hf. rewrite (R Hf).
    unfold_run. unfold failed. cbn.
    destruct (r =? RCL_RET_OK); reflexivity.
Qed.

(** C7.  The destructor first runs [clear_on_reset_callback]: with a
    callback installed, the engine is given the null pointer and the
    stored callable is released; only then are the members destroyed,
    the handle among them.  No event of the handle's teardown precedes
    the clearing, and no event of the callback protocol follows it.  When
    the engine refuses the null registration the destructor does not
    return, and the handle is not released. *)
Theorem destructor_clears_callback_before_handle (w : world) :
  let h := timer_handle_ w in
  let unregister :=
    EvRcl (call_timer_set_on_reset_callback h None nullptr None) in
  let reg := rcl_timer_set_on_reset_callback api (engine w) h None nullptr in
  let run := TimerBase_destructor api w in
  exists pre post,
    trace_of run = pre ++ post /\
    existsb touches_handle pre = false /\
    existsb touches_callback post = false /\
    match on_reset_callback_ w with
    | None =>
        pre = [EvLock callback_mutex_; EvUnlock callback_mutex_] /\
        post = trace_of (destroy_members api w) /\
        result_of run = result_of (destroy_members api w)
    | Some f =>
        if failed (fst reg) then
          In unregister pre /\ post = [] /\ result_of run = Terminated
        else
          let w1 := set_on_reset_callback_ None (set_engine (snd reg) w) in
          pre = [EvLock callback_mutex_; unregister;
                 EvAssignCallback (Some f) None; EvUnlock callback_mutex_] /\
          post = trace_of (destroy_members api w1) /\
          result_of run = result_of (destroy_members api w1)
    end.
Proof.
  cbn zeta.
  unfold TimerBase_destructor, on_throw, bind.
  rewrite clear_on_reset_callback_run.
  destruct (on_reset_callback_ w) as [f|].
  - destruct (rcl_timer_set_on_reset_callback api (engine w) (timer_handle_ w)
                None nullptr) as [r e1]. cbn.
    destruct (failed r).
    + exists [EvLock callback_mutex_;
              EvRcl (call_timer_set_on_reset_callback (timer_handle_ w)
                       None nullptr None);
              EvUnlock callback_mutex_], [].
      unfold_run; cbn.
      repeat split; try reflexivity. right; left; reflexivity.
    + pose proof (destroy_members_no_callback_events
                    (set_on_reset_callback_ None (set_engine e1 w))) as N.
      destruct (destroy_members api (set_on_reset_callback_ None (set_engine e1 w)))
        as [[o w2] t2].
      exists [EvLock callback_mutex_;
              EvRcl (call_timer_set_on_reset_callback (timer_handle_ w)
                       None nullptr None);
              EvAssignCallback (Some f) None;
              EvUnlock callback_mutex_], t2.
      unfold_run; cbn.
      repeat split; try reflexivity. exact N.
  - pose proof (destroy_members_no_callback_events w) as N.
    destruct (destroy_members api w) as [[o w2] t2].
    exists [EvLock callback_mutex_; EvUnlock callback_mutex_], t2.
    unfold_run; cbn.
    repeat split; try reflexivity. exact N.
Qed.

(** C8.  An empty callable is rejected with [std::invalid_argument]; the
    call emits nothing (no lock, no engine call) and leaves the world,
    the stored callable and the engine in it, as it was. *)
Theorem set_on_reset_callback_rejects_empty (w : world) :
  set_on_reset_callback api None w =
  (Thrown (invalid_argument
             "The callback passed to set_on_reset_callback is not callable."),
   w, []).
Proof. reflexivity. Qed.

(** C9.  [clear_on_reset_callback]: with a callback installed, one engine
    call with a null function pointer and a null user data pointer, and
    on its success the stored callable is released; with none installed,
    no engine call and the world unchanged.  Two calls in a row end as
    one call does: same outcome, same world, same engine calls. *)
Theorem clear_on_reset_callback_idempotent (w : world) :
  let once := clear_on_reset_callback api w in
  let twice :=
    bind (clear_on_reset_callback api)
      (fun _ => clear_on_reset_callback api) w in
  let h := timer_handle_ w in
  let reg := rcl_timer_set_on_reset_callback api (engine w) h None nullptr in
  let unregister :=
    EvRcl (call_timer_set_on_reset_callback h None nullptr None) in
  match on_reset_callback_ w with
  | None =>
      once = (Returned tt, w,
              [EvLock callback_mutex_; EvUnlock callback_mutex_])
  | Some f =>
      filter is_rcl_call (trace_of once) = [unregister] /\
      if failed (fst reg) then
        result_of once =
          Thrown (RCLError (fst reg) "Failed to set timer on reset callback"
                    (rcl_get_error_string api (snd reg))) /\
        on_reset_callback_ (world_of once) = Some f
      else
        once = (Returned tt,
                set_on_reset_callback_ None (set_engine (snd reg) w),
                [EvLock callback_mutex_; unregister;
                 EvAssignCallback (Some f) None; EvUnlock callback_mutex_])
  end /\
  result_of twice = result_of once /\
  world_of twice = world_of once /\
  filter is_rcl_call (trace_of twice) = filter is_rcl_call (trace_of once).
Proof.
  cbn zeta. unfold bind.
  rewrite clear_on_reset_callback_run.
  destruct (on_reset_callback_ w) as [f|] eqn:Hs.
  - destruct (rcl_timer_set_on_reset_callback api (engine w) (timer_handle_ w)
                None nullptr) as [r e1]. cbn -[clear_on_reset_callback].
    destruct (failed r); cbn -[clear_on_reset_callback].
    + unfold_run; cbn. rewrite Hs. repeat split; reflexivity.
    + rewrite clear_on_reset_callback_run. unfold_run; cbn.
      repeat split; reflexivity.
  - cbn -[clear_on_reset_callback].
    rewrite clear_on_reset_callback_run, Hs. unfold_run; cbn.
    repeat split; reflexivity.
Qed.

(** C10.  When the first registration of an installation (to the local
    adapter) fails, the call throws the registration error and
    [on_reset_callback_] holds what it held before the call; the second
    registration is not attempted. *)
Theorem failed_first_registration_keeps_callback
    (callback : user_fn) (w : world) :
  let reg1 :=
    rcl_timer_set_on_reset_callback api (engine w) (timer_handle_ w)
      (Some trampoline_new_callback) addr_new_callback in
  let run := set_on_reset_callback api (Some callback) w in
  failed (fst reg1) = true ->
  result_of run =
    Thrown (RCLError (fst reg1) "Failed to set timer on reset callback"
              (rcl_get_error_string api (snd reg1))) /\
  on_reset_callback_ (world_of run) = on_reset_callback_ w /\
  existsb (fun ev => match ev with EvAssignCallback _ _ => true | _ => false end)
    (trace_of run) = false /\
  rcl_calls (trace_of run) = 1%nat.
Proof.
  cbn zeta. intros H. rewrite set_on_reset_callback_run. rewrite H.
  unfold_run; cbn. repeat split; reflexivity.
Qed.

End Properties.

(** * Concrete runs *)

Example construction_run :
  TimerBase ref_rcl 5 1000 None 64 (raw_world (ref_engine_with []) 4096) =
  (Returned tt, timer_world (ref_engine_with []) None,
   [EvNew 64; EvLock (clock_mutex 5);
    EvRcl (call_timer_init (Some 64) 105 (Some 8) 1000);
    EvUnlock (clock_mutex 5); EvRelease local_rcl_context 8]).
Proof. reflexivity. Qed.

Example install_then_reset_run :
  trace_of
    (bind (set_on_reset_callback ref_rcl (Some recording_callback))
       (fun _ => reset ref_rcl) (timer_world (ref_engine_with []) None)) =
  [EvLock callback_mutex_;
   EvRcl (call_timer_set_on_reset_callback (Some 64)
            (Some trampoline_new_callback) addr_new_callback
            (Some (NewCallback recording_callback 4096)));
   EvAssignCallback None (Some (NewCallback recording_callback 4096));
   EvRcl (call_timer_set_on_reset_callback (Some 64)
            (Some trampoline_on_reset_callback_) addr_on_reset_callback_
            (Some (NewCallback recording_callback 4096)));
   EvUnlock callback_mutex_;
   EvLock callback_mutex_; EvRcl (call_timer_reset (Some 64));
   EvUserCallback 1; EvUnlock callback_mutex_].
Proof. reflexivity. Qed.

Example destruction_run :
  trace_of
    (TimerBase_destructor ref_rcl
       (timer_world (ref_engine_registered [])
          (Some (NewCallback recording_callback 4096)))) =
  [EvLock callback_mutex_;
   EvRcl (call_timer_set_on_reset_callback (Some 64) None nullptr None);
   EvAssignCallback (Some (NewCallback recording_callback 4096)) None;
   EvUnlock callback_mutex_;
   EvRelease member_timer_handle_ 64;
   EvLock (clock_mutex 5); EvRcl (call_timer_fini 64);
   EvUnlock (clock_mutex 5); EvDelete 64;
   EvRelease deleter_clock 5; EvRelease deleter_rcl_context 8;
   EvRelease member_clock_ 5].
Proof. reflexivity. Qed.

(** With a second owner of the handle (from [get_timer_handle]) the
    destructor gives up the member's share and the deleter does not run. *)
Example shared_handle_destruction_run :
  trace_of
    (bind (get_timer_handle (E := ref_engine))
       (fun _ => TimerBase_destructor ref_rcl)
       (timer_world (ref_engine_with []) None)) =
  [EvLock callback_mutex_; EvUnlock callback_mutex_;
   EvRelease member_timer_handle_ 64; EvRelease member_clock_ 5].
Proof. reflexivity. Qed.

(** C3, as stated, fails: [rcl_timer_init] returns a failure code, the
    construction throws, and yet the engine's finalization is called on
    the failed record: the deleter had been installed. *)
Lemma failed_construction_runs_finalizer :
  failed
    (fst (rcl_timer_init ref_rcl (ref_engine_with [1]) (Some 64) 105 (Some 8) 1000))
    = true /\
  result_of failed_construction =
    Thrown (RCLError 1 "Couldn't initialize rcl timer handle" "timer failure") /\
  In (EvRcl (call_timer_fini 64)) (trace_of failed_construction) /\
  ~ (existsb is_fini_call (trace_of failed_construction) = false).
Proof.
  split; [reflexivity|]. split; [reflexivity|]. split.
  - vm_compute. do 7 right. left. reflexivity.
  - vm_compute. discriminate.
Qed.

Lemma failed_construction_throws_and_finalizes_witness :
  result_of failed_construction =
    Thrown (RCLError 1 "Couldn't initialize rcl timer handle" "timer failure") /\
  timer_handle_ (world_of failed_construction) = None /\
  handle_block (world_of failed_construction) = None /\
  trace_of failed_construction =
    [EvNew 64; EvLock (clock_mutex 5);
     EvRcl (call_timer_init (Some 64) 105 (Some 8) 1000);
     EvUnlock (clock_mutex 5); EvRelease local_rcl_context 8;
     EvRelease member_timer_handle_ 64;
     EvLock (clock_mutex 5); EvRcl (call_timer_fini 64);
     EvUnlock (clock_mutex 5); EvDelete 64;
     EvRelease deleter_clock 5; EvRelease deleter_rcl_context 8;
     EvRelease member_clock_ 5] /\
  List.length (filter is_fini_call (trace_of failed_construction)) = 1%nat.
Proof.
  exact (failed_construction_throws_and_finalizes ref_rcl 5 1000 None 64
           (raw_world (ref_engine_with [1]) 4096) eq_refl).
Defined.

Lemma time_until_trigger_canceled_is_not_an_error_witness :
  result_of (time_until_trigger ref_rcl
               (timer_world (ref_engine_with [RCL_RET_TIMER_CANCELED]) None)) =
    Returned nanoseconds_max /\
  result_of (cancel ref_rcl
               (timer_world (ref_engine_with [RCL_RET_TIMER_CANCELED]) None)) =
    Thrown (RCLError RCL_RET_TIMER_CANCELED "Couldn't cancel timer"
              "timer failure") /\
  result_of (is_canceled ref_rcl
               (timer_world (ref_engine_with [RCL_RET_TIMER_CANCELED]) None)) =
    Thrown (RCLError RCL_RET_TIMER_CANCELED
              "Couldn't get timer cancelled state" "timer failure") /\
  result_of (is_ready ref_rcl
               (timer_world (ref_engine_with [RCL_RET_TIMER_CANCELED]) None)) =
    Thrown (RCLError RCL_RET_TIMER_CANCELED "Failed to check timer"
              "timer failure") /\
  result_of (reset ref_rcl
               (timer_world (ref_engine_with [RCL_RET_TIMER_CANCELED]) None)) =
    Thrown (RCLError RCL_RET_TIMER_CANCELED "Couldn't reset timer"
              "timer failure").
Proof.
  destruct (time_until_trigger_canceled_is_not_an_error ref_rcl
              (timer_world (ref_engine_with [RCL_RET_TIMER_CANCELED]) None))
    as (H1 & H2 & H3 & H4 & H5).
  split; [exact H1|].
  split; [exact (H2 _ eq_refl)|].
  split; [exact (H3 _ _ eq_refl)|].
  split; [exact (H4 _ _ eq_refl)|].
  exact (H5 _ _ eq_refl eq_refl).
Defined.

Lemma on_reset_adapter_contains_user_exceptions_witness :
  result_of (reset ref_rcl
               (timer_world (ref_engine_registered [])
                  (Some (NewCallback throwing_callback 4096)))) =
    Returned tt /\
  trace_of (reset ref_rcl
              (timer_world (ref_engine_registered [])
                 (Some (NewCallback throwing_callback 4096)))) =
    [EvLock callback_mutex_; EvRcl (call_timer_reset (Some 64));
     EvUserCallback 1;
     EvLogError "rclcpp"
       [Text "rclcpp::TimerBase@"; Ptr 4096; Text " caught ";
        Text "std::runtime_error";
        Text " exception in user-provided callback for the 'on reset' callback: ";
        Text "boom"];
     EvUnlock callback_mutex_] /\
  on_reset_callback_
    (world_of (set_on_reset_callback ref_rcl (Some throwing_callback)
                 (timer_world (ref_engine_registered [])
                    (Some (NewCallback throwing_callback 4096))))) =
    Some (NewCallback throwing_callback 4096).
Proof.
  destruct (on_reset_adapter_contains_user_exceptions ref_rcl
              throwing_callback 4096 1
              (timer_world (ref_engine_registered [])
                 (Some (NewCallback throwing_callback 4096))))
    as (_ & H2 & H3).
  destruct (H2 _ _ eq_refl eq_refl) as [R T].
  split; [exact R|]. split; [exact T|]. exact (H3 eq_refl).
Defined.

Lemma state_operations_call_engine_once_witness :
  result_of (reset ref_rcl
               (timer_world (ref_engine_registered [])
                  (Some (NewCallback throwing_int_callback 4096)))) =
    Returned tt /\
  result_of (reset ref_rcl
               (timer_world (ref_engine_registered [3])
                  (Some (NewCallback throwing_int_callback 4096)))) =
    Thrown (RCLError 3 "Couldn't reset timer" "timer failure").
Proof.
  split.
  - destruct (state_operations_call_engine_once ref_rcl
                (timer_world (ref_engine_registered [])
                   (Some (NewCallback throwing_int_callback 4096))))
      as (_ & _ & _ & _ & H).
    exact (H eq_refl).
  - destruct (state_operations_call_engine_once ref_rcl
                (timer_world (ref_engine_registered [3])
                   (Some (NewCallback throwing_int_callback 4096))))
      as (_ & _ & _ & _ & H).
    exact (H eq_refl).
Defined.

Lemma failed_first_registration_keeps_callback_witness :
  result_of (set_on_reset_callback ref_rcl (Some throwing_callback)
               (timer_world (ref_engine_registered [1])
                  (Some (NewCallback recording_callback 4096)))) =
    Thrown (RCLError 1 "Failed to set timer on reset callback" "timer failure") /\
  on_reset_callback_
    (world_of (set_on_reset_callback ref_rcl (Some throwing_callback)
                 (timer_world (ref_engine_registered [1])
                    (Some (NewCallback recording_callback 4096))))) =
    Some (NewCallback recording_callback 4096).
Proof.
  destruct (failed_first_registration_keeps_callback ref_rcl throwing_callback
              (timer_world (ref_engine_registered [1])
                 (Some (NewCallback recording_callback 4096))) eq_refl)
    as (R & S & _ & _).
  split; [exact R | exact S].
Defined.

(** * Further properties of the code *)

Section Further.

Context {E U : Type}.
Variable api : rcl E.

#[local] Abbreviation world := (@world E U).
#[local] Abbreviation event := (@event U).

Ltac runs := unfold result_of, world_of, trace_of.

Ltac monad :=
  unfold lock_guard, rcl_invoke, throw_from_rcl_error, shared_ptr_reset,
    finally, on_throw, bind, ret, get, modify, emit, throw, undefined.

(** *** Traces *)

Lemma locks_held_app (t1 t2 : list event) (held : list mutex) :
  locks_held (t1 ++ t2) held =
  match locks_held t1 held with
  | Some h1 => locks_held t2 h1
  | None => None
  end.
Proof.
  revert held. induction t1 as [|ev t1 IH]; intros held; [reflexivity|].
  destruct ev as [m|m| | | | | | | |]; cbn; try apply IH.
  - destruct m as [c|]; [|apply IH].
    destruct (existsb (mutex_eqb (clock_mutex c)) held); [reflexivity|apply IH].
  - destruct held as [|h held]; [reflexivity|].
    destruct (mutex_eqb h m); [apply IH|reflexivity].
Qed.

Lemma operation_events_spare_the_handle (t : list event) :
  forallb operation_event t = true ->
  existsb touches_handle t = false /\
  filter is_fini_call t = [] /\
  filter is_new t = [] /\
  filter is_delete t = [].
Proof.
  induction t as [|ev t IH]; [repeat split; reflexivity|].
  cbn [forallb]. intros H. apply andb_prop in H. destruct H as [Hev Ht].
  destruct (IH Ht) as (I1 & I2 & I3 & I4).
  cbn [existsb filter]. rewrite I1, I2, I3, I4.
  destruct ev as [m|m| | |c| | | | |]; try discriminate; cbn;
    try (repeat split; reflexivity).
  destruct c; try discriminate; repeat split; reflexivity.
Qed.

(** *** What one operation keeps *)

Lemma reset_keeps (w : world) : keeps w (reset api w).
Proof.
  destruct w as [e u a c t s b l].
  unfold keeps, same_handle, callback_bound, reset, cpp_callback_trampoline,
    invoke, new_callback.
  runs. monad. cbn.
  destruct (rcl_timer_reset api e t) as [[r fired] e1]. cbn.
  destruct fired as [[[f p] n]|]; cbn.
  - destruct f, p; cbn;
      try (repeat split; try reflexivity; try (intros H; exact H);
           intros H; exfalso; apply H; reflexivity).
    + destruct l as [[cb a']|]; cbn.
      * destruct (cb n u) as [[[ty what|]|] u1]; cbn;
          destruct (failed r); cbn;
          repeat split; try reflexivity; try (intros H; exact H).
      * repeat split; try reflexivity; try (intros H; exact H).
        intros H; exfalso; apply H; reflexivity.
    + destruct s as [[cb a']|]; cbn.
      * destruct (cb n u) as [[[ty what|]|] u1]; cbn;
          destruct (failed r); cbn;
          repeat split; try reflexivity; try (intros H; exact H).
      * repeat split; try reflexivity; try (intros H; exact H).
  - destruct (failed r); cbn;
      repeat split; try reflexivity; try (intros H; exact H).
Qed.

Lemma run_operation_keeps (o : operation U) (w : world) :
  keeps w (run_operation api o w).
Proof.
  destruct o as [| | | | |callback|]; cbn [run_operation].
  - unfold keeps, same_handle, callback_bound. rewrite cancel_run.
    destruct (rcl_timer_cancel api (engine w) (timer_handle_ w)) as [r e1].
    runs; cbn. repeat split; try reflexivity; try (intros H; exact H).
  - unfold keeps, same_handle, callback_bound, bind. rewrite is_canceled_run.
    destruct (rcl_timer_is_canceled api (engine w) (timer_handle_ w) false)
      as [[r v] e1].
    destruct (failed r); runs; cbn;
      repeat split; try reflexivity; try (intros H; exact H).
  - apply reset_keeps.
  - unfold keeps, same_handle, callback_bound, bind. rewrite is_ready_run.
    destruct (rcl_timer_is_ready api (engine w) (timer_handle_ w) false)
      as [[r v] e1].
    destruct (failed r); runs; cbn;
      repeat split; try reflexivity; try (intros H; exact H).
  - unfold keeps, same_handle, callback_bound, bind.
    rewrite time_until_trigger_run.
    destruct (rcl_timer_get_time_until_next_call api (engine w)
                (timer_handle_ w) 0) as [[r v] e1].
    destruct (r =? RCL_RET_TIMER_CANCELED), (failed r); runs; cbn;
      repeat split; try reflexivity; try (intros H; exact H).
  - destruct callback as [callback|].
    + unfold keeps, same_handle, callback_bound.
      rewrite set_on_reset_callback_run.
      destruct (failed (fst (rcl_timer_set_on_reset_callback api (engine w)
                               (timer_handle_ w) (Some trampoline_new_callback)
                               addr_new_callback)));
        runs; cbn; repeat split; try reflexivity; try (intros H; exact H).
    + unfold keeps, same_handle, callback_bound. runs; cbn.
      repeat split; try reflexivity; try (intros H; exact H).
  - unfold keeps, same_handle, callback_bound.
    rewrite clear_on_reset_callback_run.
    destruct (on_reset_callback_ w) as [f|] eqn:Hs.
    + destruct (rcl_timer_set_on_reset_callback api (engine w)
                  (timer_handle_ w) None nullptr) as [r e1].
      destruct (failed r); runs; cbn; try rewrite Hs;
        repeat split; try reflexivity; try (intros H; exact H).
    + runs; cbn. rewrite Hs.
      repeat split; try reflexivity; try (intros H; exact H).
Qed.

Lemma run_operations_keep (ops : list (operation U)) (w : world) :
  same_handle w (fst (run_operations api ops w)) /\
  (callback_bound w -> callback_bound (fst (run_operations api ops w))) /\
  (new_callback_local w = None ->
   new_callback_local (fst (run_operations api ops w)) = None) /\
  forallb operation_event (snd (run_operations api ops w)) = true /\
  forallb registration_ok (snd (run_operations api ops w)) = true.
Proof.
  revert w. induction ops as [|o ops IH]; intros w.
  - cbn. unfold same_handle. repeat split; try reflexivity; intros H; exact H.
  - cbn [run_operations].
    destruct (run_operation_keeps o w) as (K1 & K2 & K3 & K4 & K5 & _).
    destruct (run_operation api o w) as [[r w1] t1].
    unfold world_of, trace_of in *. cbn [fst snd] in *.
    destruct (IH w1) as (I1 & I2 & I3 & I4 & I5).
    destruct (run_operations api ops w1) as [w2 t2]. cbn [fst snd] in *.
    assert (S12 : same_handle w w2).
    { unfold same_handle in *.
      destruct K1 as (A1 & A2 & A3 & A4), I1 as (B1 & B2 & B3 & B4).
      repeat split; congruence. }
    destruct r; cbn [fst snd];
      first [ split; [exact K1 | split; [exact K2 | split; [exact K3 |
                split; [exact K4 | exact K5]]]]
            | split; [exact S12 | split; [auto | split; [auto | split;
                [ rewrite forallb_app, K4, I4; reflexivity
                | rewrite forallb_app, K5, I5; reflexivity ]]]] ].
Qed.

(** *** The destruction of the members *)

Lemma destroy_members_run (w : world) (t c : address) (b : control_block) :
  timer_handle_ w = Some t ->
  handle_block w = Some b ->
  (use_count b <= 1)%nat ->
  captured_clock b = Some c ->
  destroy_members api w =
  let '(r, e1) := rcl_timer_fini api (engine w) (managed b) in
  (Returned tt,
   set_clock_ None
     (set_engine (if failed r then rcl_reset_error api e1 else e1)
        (set_handle_block None (set_timer_handle_ None w))),
   [EvRelease member_timer_handle_ t] ++
   deleter_trace c (captured_rcl_context b) (managed b) r
     (rcl_get_error_string api e1) ++
   release_events member_clock_ (clock_ w)).
Proof.
  destruct w as [e u a k h s hb l]. cbn. intros Ht Hb Hc Hk. subst h hb.
  unfold destroy_members, release_timer_handle_.
  unfold bind at 1 2. cbn -[timer_deleter].
  apply Nat.leb_le in Hc. rewrite Hc.
  unfold bind, modify, emit. cbn -[timer_deleter]. rewrite Hk.
  rewrite timer_deleter_run. cbn.
  destruct (rcl_timer_fini api e (managed b)) as [r e1].
  monad. unfold deleter_trace. cbn.
  destruct k, (failed r), (captured_rcl_context b); reflexivity.
Qed.

Lemma destroy_members_result (w : world) :
  match result_of (destroy_members api w) with
  | Returned _ => True
  | Undefined => exists b, handle_block w = Some b /\ captured_clock b = None
  | _ => False
  end.
Proof.
  destruct w as [e u a k h s hb l].
  unfold destroy_members, release_timer_handle_.
  unfold bind at 1 2. cbn -[timer_deleter].
  destruct h as [t|]; [destruct hb as [b|]|].
  - unfold bind at 1 2 3. cbn -[timer_deleter].
    destruct (use_count b <=? 1)%nat.
    + unfold bind at 1. cbn -[timer_deleter].
      destruct (captured_clock b) as [c|] eqn:Hk.
      * rewrite timer_deleter_run. cbn.
        destruct (rcl_timer_fini api e (managed b)) as [r e1].
        runs. monad. cbn. destruct k; exact I.
      * cbn. exists b. split; [reflexivity|exact Hk].
    + runs. monad. cbn. destruct k; exact I.
  - runs. monad. cbn. destruct k; exact I.
  - runs. monad. cbn. destruct k; exact I.
Qed.

(** *** The destructor of a sole owner *)

Lemma destructor_of_sole_owner (w : world) (t c : address) (b : control_block) :
  timer_handle_ w = Some t ->
  handle_block w = Some b ->
  (use_count b <= 1)%nat ->
  captured_clock b = Some c ->
  result_of (TimerBase_destructor api w) = Returned tt ->
  exists pre post,
    trace_of (TimerBase_destructor api w) =
      pre ++ EvRcl (call_timer_fini (managed b)) :: post /\
    (filter is_fini_call pre = [] /\ filter is_new pre = [] /\
     filter is_delete pre = []) /\
    (filter is_rcl_call post = [] /\ filter is_new post = [] /\
     filter is_delete post = [EvDelete (managed b)]) /\
    timer_handle_ (world_of (TimerBase_destructor api w)) = None /\
    handle_block (world_of (TimerBase_destructor api w)) = None /\
    on_reset_callback_ (world_of (TimerBase_destructor api w)) = None /\
    clock_ (world_of (TimerBase_destructor api w)) = None.
Proof.
  intros Ht Hb Hc Hk.
  unfold TimerBase_destructor, on_throw, bind.
  rewrite clear_on_reset_callback_run.
  destruct (on_reset_callback_ w) as [f|] eqn:Hs.
  - destruct (rcl_timer_set_on_reset_callback api (engine w) (timer_handle_ w)
                None nullptr) as [r e1].
    destruct (failed r);
      cbn -[destroy_members set_on_reset_callback_ set_engine];
      [discriminate|].
    rewrite (destroy_members_run
               (set_on_reset_callback_ None (set_engine e1 w)) t c b
               Ht Hb Hc Hk).
    cbn -[deleter_trace].
    destruct (rcl_timer_fini api e1 (managed b)) as [r2 e2].
    intros _. runs. unfold deleter_trace. cbn.
    exists [EvLock callback_mutex_;
            EvRcl (call_timer_set_on_reset_callback (timer_handle_ w)
                     None nullptr None);
            EvAssignCallback (Some f) None; EvUnlock callback_mutex_;
            EvRelease member_timer_handle_ t; EvLock (clock_mutex c)].
    eexists. split; [reflexivity|].
    destruct (failed r2), (captured_rcl_context b), (clock_ w);
      cbn; repeat split; reflexivity.
  - cbn -[destroy_members].
    rewrite (destroy_members_run _ t c b Ht Hb Hc Hk).
    destruct (rcl_timer_fini api (engine w) (managed b)) as [r2 e2].
    intros _. runs. unfold deleter_trace. cbn.
    exists [EvLock callback_mutex_; EvUnlock callback_mutex_;
            EvRelease member_timer_handle_ t; EvLock (clock_mutex c)].
    eexists. split; [reflexivity|].
    destruct (failed r2), (captured_rcl_context b), (clock_ w);
      cbn; rewrite ?Hs; repeat split; reflexivity.
Qed.

(** * Further properties, stated *)

(** X1.  A construction whose [rcl_timer_init] returns RCL_RET_OK returns
    with the object bound to its clock, a non-null handle of which it is
    the sole owner, the deleter holding the clock and the context, and no
    callback stored.  It has called the engine once (the initialization,
    with the given period) and released nothing of the native record;
    [get_timer_handle] then yields the non-null handle. *)
Theorem construction_yields_sole_owner
    (clock : address) (period : int64_t) (context : option address)
    (storage : address) (w : world) :
  let ctx :=
    match context with
    | None => get_global_default_context api
    | Some c => c
    end in
  let rc := get_rcl_context api ctx in
  let ch := get_clock_handle api clock in
  let e0 := write_zero_initialized_timer api (engine w) (Some storage) in
  let init := rcl_timer_init api e0 (Some storage) ch rc period in
  let run := TimerBase api clock period context storage w in
  failed (fst init) = false ->
  result_of run = Returned tt /\
  clock_ (world_of run) = Some clock /\
  timer_handle_ (world_of run) = Some storage /\
  handle_block (world_of run) =
    Some {| use_count := 1; managed := storage;
            captured_clock := Some clock; captured_rcl_context := rc |} /\
  on_reset_callback_ (world_of run) = None /\
  engine (world_of run) = snd init /\
  filter is_rcl_call (trace_of run) =
    [EvRcl (call_timer_init (Some storage) ch rc period)] /\
  filter is_delete (trace_of run) = [] /\
  result_of (get_timer_handle (world_of run)) = Returned (Some storage).
Proof.
  cbn zeta. intros Hok. rewrite TimerBase_run, Hok. runs. cbn.
  destruct (get_rcl_context api
              match context with
              | Some c => c
              | None => get_global_default_context api
              end); repeat split; reflexivity.
Qed.

(** X2.  The constructor and the clock's mutex: whether the engine's
    initialization succeeds or fails, the constructor's run never locks
    the clock's mutex while it is held and ends with no mutex held.  On
    the failing path the guard of the initialization is released before
    the deleter takes the mutex again. *)
Theorem constructor_lock_discipline
    (clock : address) (period : int64_t) (context : option address)
    (storage : address) (w : world) :
  locks_held (trace_of (TimerBase api clock period context storage w)) []
  = Some [].
Proof.
  rewrite TimerBase_run.
  destruct (failed (fst (rcl_timer_init api _ (Some storage) _ _ period)));
    runs; unfold deleter_trace; cbn;
    destruct (get_rcl_context api
                match context with
                | Some c => c
                | None => get_global_default_context api
                end); cbn;
    try destruct (failed (fst (rcl_timer_fini api _ storage))); cbn;
    rewrite ?Z.eqb_refl; reflexivity.
Qed.

(** X3.  No operation on a constructed timer touches the handle: after
    any sequence of [cancel], [is_canceled], [reset], [is_ready],
    [time_until_trigger], [set_on_reset_callback] and
    [clear_on_reset_callback], whatever each returned or threw, the
    object has the clock, the handle and the control block it had; and
    the sequence has emitted no release, no finalization, no allocation
    and no deletion. *)
Theorem operations_keep_the_handle (ops : list (operation U)) (w : world) :
  same_handle w (fst (run_operations api ops w)) /\
  existsb touches_handle (snd (run_operations api ops w)) = false /\
  filter is_fini_call (snd (run_operations api ops w)) = [] /\
  filter is_new (snd (run_operations api ops w)) = [] /\
  filter is_delete (snd (run_operations api ops w)) = [].
Proof.
  destruct (run_operations_keep ops w) as (K1 & _ & _ & K4 & _).
  split; [exact K1|]. apply operation_events_spare_the_handle. exact K4.
Qed.

(** X4.  Every registration that a sequence of operations makes with the
    engine is well formed: either the null function pointer with the null
    user data, or a trampoline with the address of an object of its own
    type that holds a callable at the time of the call.  The engine is
    never handed the address of an empty or dead callable. *)
Theorem operations_register_live_callables
    (ops : list (operation U)) (w : world) :
  forallb registration_ok (snd (run_operations api ops w)) = true.
Proof.
  destruct (run_operations_keep ops w) as (_ & _ & _ & _ & K5). exact K5.
Qed.

(** X5.  The stored callable stays bound to its timer: if the stored
    callable (if any) captured the address of this timer and no
    installation is in progress, the same holds after any sequence of
    operations, so the adapter's log always names the timer that stores
    it. *)
Theorem operations_keep_callback_bound
    (ops : list (operation U)) (w : world) :
  callback_bound w ->
  new_callback_local w = None ->
  callback_bound (fst (run_operations api ops w)) /\
  new_callback_local (fst (run_operations api ops w)) = None.
Proof.
  intros Hb Hl.
  destruct (run_operations_keep ops w) as (_ & K2 & K3 & _).
  split; [apply K2; exact Hb | apply K3; exact Hl].
Qed.

(** X6.  Every operation that returns or throws has released the locks it
    took, also when the engine call fails or the user callback throws;
    and it emits only events of operations: no operation takes the
    clock's mutex. *)
Theorem operations_release_their_locks
    (o : operation U) (w : world) (held : list mutex) :
  result_of (run_operation api o w) <> Undefined ->
  locks_held (trace_of (run_operation api o w)) held = Some held /\
  forallb operation_event (trace_of (run_operation api o w)) = true.
Proof.
  intros H.
  destruct (run_operation_keeps o w) as (_ & _ & _ & K4 & _ & K6).
  split; [apply K6; exact H | exact K4].
Qed.

(** X7.  A whole life: a successful construction, any sequence of
    operations, and a destructor that returns.  The native record is
    allocated once, finalized by the engine once and deleted once; the
    finalization comes after every other engine call on the timer, and
    the object ends with no handle, no clock and no callback. *)
Theorem lifecycle_finalizes_once
    (clock : address) (period : int64_t) (context : option address)
    (storage : address) (ops : list (operation U)) (w : world) :
  let ctor := TimerBase api clock period context storage w in
  let live := run_operations api ops (world_of ctor) in
  let dtor := TimerBase_destructor api (fst live) in
  let whole := trace_of ctor ++ snd live ++ trace_of dtor in
  result_of ctor = Returned tt ->
  result_of dtor = Returned tt ->
  filter is_new whole = [EvNew storage] /\
  filter is_fini_call whole = [EvRcl (call_timer_fini storage)] /\
  filter is_delete whole = [EvDelete storage] /\
  (exists pre post,
     whole = pre ++ EvRcl (call_timer_fini storage) :: post /\
     filter is_rcl_call post = []) /\
  timer_handle_ (world_of dtor) = None /\
  handle_block (world_of dtor) = None /\
  on_reset_callback_ (world_of dtor) = None /\
  clock_ (world_of dtor) = None.
Proof.
  cbn zeta. rewrite TimerBase_run.
  destruct (failed (fst (rcl_timer_init api _ (Some storage) _ _ period)));
    [discriminate|].
  intros _. cbv beta iota. runs. cbn [fst snd].
  match goal with
  | |- context [run_operations api ops ?w1] =>
      destruct (operations_keep_the_handle ops w1)
        as ((_ & _ & Kt & Kb) & _ & Of & On & Od);
      destruct (run_operations api ops w1) as [w2 t2]
  end.
  cbn [fst snd this clock_ timer_handle_ handle_block] in *.
  intros Hd.
  match type of Kb with
  | _ = Some ?b0 =>
      destruct (destructor_of_sole_owner w2 storage clock b0 Kt Kb
                  (Nat.le_refl 1) eq_refl Hd)
        as (pre & post & Ht & (P1 & P2 & P3) & (Q1 & Q2 & Q3) & W1 & W2 & W3 & W4)
  end.
  unfold world_of, trace_of in *. cbn [managed] in *. rewrite Ht.
  assert (Q4 : filter is_fini_call post = []).
  { clear - Q1. induction post as [|ev post IH]; [reflexivity|].
    cbn in Q1 |- *. destruct ev as [| | | |c| | | | |]; cbn in Q1 |- *;
      try (apply IH; exact Q1); discriminate. }
  repeat rewrite filter_app. cbn [filter is_new is_fini_call is_delete].
  rewrite On, Of, Od, P1, P2, P3, Q2, Q3, Q4.
  destruct (get_rcl_context api
              match context with
              | Some c => c
              | None => get_global_default_context api
              end) as [x|]; cbn;
    (split; [reflexivity|]); (split; [reflexivity|]); (split; [reflexivity|]);
    (split; [|repeat split; assumption]).
  - exists ([EvNew storage; EvLock (clock_mutex clock);
             EvRcl (call_timer_init (Some storage)
                      (get_clock_handle api clock) (Some x) period);
             EvUnlock (clock_mutex clock); EvRelease local_rcl_context x]
            ++ t2 ++ pre), post.
    split; [|exact Q1]. rewrite <- !app_assoc. reflexivity.
  - exists ([EvNew storage; EvLock (clock_mutex clock);
             EvRcl (call_timer_init (Some storage)
                      (get_clock_handle api clock) None period);
             EvUnlock (clock_mutex clock)]
            ++ t2 ++ pre), post.
    split; [|exact Q1]. rewrite <- !app_assoc. reflexivity.
Qed.

(** X8.  A handle given out by [get_timer_handle] keeps the native timer
    alive: with that further owner, the destructor gives up only the
    member's share.  The engine's finalization is not called and the
    native record is not deleted; when the destructor returns, the
    control block is as it was before the handle was given out, the
    deleter still holding the clock and the context. *)
Theorem shared_handle_survives_destruction
    (w : world) (t : address) (b : control_block) :
  timer_handle_ w = Some t ->
  handle_block w = Some b ->
  (1 <= use_count b)%nat ->
  result_of (get_timer_handle w) = Returned (Some t) /\
  filter is_fini_call
    (trace_of (TimerBase_destructor api (world_of (get_timer_handle w)))) = [] /\
  filter is_delete
    (trace_of (TimerBase_destructor api (world_of (get_timer_handle w)))) = [] /\
  (result_of (TimerBase_destructor api (world_of (get_timer_handle w)))
     = Returned tt ->
   handle_block
     (world_of (TimerBase_destructor api (world_of (get_timer_handle w))))
     = Some b /\
   timer_handle_
     (world_of (TimerBase_destructor api (world_of (get_timer_handle w))))
     = None).
Proof.
  destruct w as [e u a k h s hb l]. cbn. intros Ht Hb Hc. subst h hb.
  destruct b as [n m cc cx]. cbn in Hc.
  destruct n as [|n]; [inversion Hc|].
  unfold get_timer_handle. runs. monad. cbn.
  split; [reflexivity|].
  unfold TimerBase_destructor, on_throw, bind.
  rewrite clear_on_reset_callback_run. cbn.
  destruct s as [f|].
  - destruct (rcl_timer_set_on_reset_callback api e (Some t) None nullptr)
      as [r e1].
    destruct (failed r); cbn.
    + repeat split; try reflexivity; discriminate.
    + unfold destroy_members, release_timer_handle_. monad. cbn.
      destruct k; cbn; repeat split; reflexivity.
  - unfold destroy_members, release_timer_handle_. monad. cbn.
    destruct k; cbn; repeat split; reflexivity.
Qed.

(** X9.  Destruction does not fail: no exception ever leaves the
    destructor.  When the clearing of the callback returns and the
    deleter's clock is not null, the destructor returns, also when the
    engine's finalization of the native record fails (which is logged). *)
Theorem destructor_never_throws (w : world) :
  (forall e, result_of (TimerBase_destructor api w) <> Thrown e) /\
  (result_of (clear_on_reset_callback api w) = Returned tt ->
   (forall b, handle_block w = Some b -> captured_clock b <> None) ->
   result_of (TimerBase_destructor api w) = Returned tt).
Proof.
  unfold TimerBase_destructor, on_throw, bind.
  rewrite clear_on_reset_callback_run.
  destruct (on_reset_callback_ w) as [f|].
  - destruct (rcl_timer_set_on_reset_callback api (engine w) (timer_handle_ w)
                None nullptr) as [r e1].
    destruct (failed r);
      cbn -[destroy_members set_on_reset_callback_ set_engine].
    + split; [intros e; discriminate | intros H; discriminate H].
    + pose proof (destroy_members_result
                    (set_on_reset_callback_ None (set_engine e1 w))) as D.
      unfold result_of in *.
      destruct (destroy_members api
                  (set_on_reset_callback_ None (set_engine e1 w)))
        as [[o w2] t2].
      cbn [fst snd] in *. split.
      * intros e. destruct o; try discriminate. destruct D.
      * intros _ Hk. destruct o as [[]| | |];
          [reflexivity | destruct D | destruct D |].
        destruct D as (b & Hb & Hn). exfalso. exact (Hk b Hb Hn).
  - pose proof (destroy_members_result w) as D.
    cbn -[destroy_members]. unfold result_of in *.
    destruct (destroy_members api w) as [[o w2] t2].
    cbn [fst snd] in *. split.
    + intros e. destruct o; try discriminate. destruct D.
    + intros _ Hk. destruct o as [[]| | |];
        [reflexivity | destruct D | destruct D |].
      destruct D as (b & Hb & Hn). exfalso. exact (Hk b Hb Hn).
Qed.

Lemma exchanges_of_true (n : nat) :
  count_occ Bool.bool_dec (fst (exchanges (repeat true n) true)) false = 0%nat.
Proof.
  induction n as [|n IH]; [reflexivity|].
  cbn [repeat exchanges exchange_in_use_by_wait_set_state].
  destruct (exchanges (repeat true n) true) as [rs f]. cbn in IH |- *.
  exact IH.
Qed.

(** X10.  The wait-set flag.  In any sequence of atomic exchanges each
    call returns the value the call before it stored (the first one the
    initial value), and the flag ends as the last value stored.  So
    among any number of callers that exchange in [true] on a flag that is
    [false], exactly one is returned [false]. *)
Theorem exchange_in_use_claims_once
    (in_use_states : list bool) (flag : bool) (n : nat) :
  fst (exchanges in_use_states flag) =
    firstn (List.length in_use_states) (flag :: in_use_states) /\
  snd (exchanges in_use_states flag) = last in_use_states flag /\
  count_occ Bool.bool_dec (fst (exchanges (repeat true (S n)) false)) false
    = 1%nat.
Proof.
  split; [|split].
  - revert flag. induction in_use_states as [|s rest IH]; intros flag;
      [reflexivity|].
    cbn [exchanges exchange_in_use_by_wait_set_state].
    specialize (IH s). destruct (exchanges rest s) as [rs f].
    cbn [fst] in IH |- *. cbn [List.length firstn]. rewrite IH. reflexivity.
  - revert flag. induction in_use_states as [|s rest IH]; intros flag;
      [reflexivity|].
    cbn [exchanges exchange_in_use_by_wait_set_state].
    specialize (IH s). destruct (exchanges rest s) as [rs f].
    cbn [snd] in IH |- *. rewrite IH. clear.
    destruct rest as [|b rest]; [reflexivity|].
    change (last (s :: b :: rest) flag) with (last (b :: rest) flag).
    revert b. induction rest as [|c rest IH]; intros b; [reflexivity|].
    change (last (b :: c :: rest) s) with (last (c :: rest) s).
    change (last (b :: c :: rest) flag) with (last (c :: rest) flag).
    apply IH.
  - cbn [repeat exchanges exchange_in_use_by_wait_set_state].
    pose proof (exchanges_of_true n) as H.
    destruct (exchanges (repeat true n) true) as [rs f]. cbn in H |- *.
    rewrite H. reflexivity.
Qed.

(** X11.  An installation is not rolled back: when the first
    registration succeeds and the second one fails, the call throws the
    registration error, [on_reset_callback_] holds the new adapter (the
    callable stored before is gone), and the local adapter, the only
    address the engine accepted during the call, is dead on return. *)
Theorem failed_second_registration_is_not_rolled_back
    (callback : user_fn) (w : world) :
  let reg1 :=
    rcl_timer_set_on_reset_callback api (engine w) (timer_handle_ w)
      (Some trampoline_new_callback) addr_new_callback in
  let reg2 :=
    rcl_timer_set_on_reset_callback api (snd reg1) (timer_handle_ w)
      (Some trampoline_on_reset_callback_) addr_on_reset_callback_ in
  let run := set_on_reset_callback api (Some callback) w in
  failed (fst reg1) = false ->
  failed (fst reg2) = true ->
  result_of run =
    Thrown (RCLError (fst reg2) "Failed to set timer on reset callback"
              (rcl_get_error_string api (snd reg2))) /\
  pointee (world_of run) addr_on_reset_callback_ =
    Some (NewCallback callback (this w)) /\
  pointee (world_of run) addr_new_callback = None /\
  rcl_calls (trace_of run) = 2%nat.
Proof.
  cbn zeta. intros H1 H2. rewrite set_on_reset_callback_run, H1, H2.
  runs. cbn. repeat split; reflexivity.
Qed.

(** X12.  What the largest duration means: [time_until_trigger] returns
    [nanoseconds::max()] exactly when the engine reports the timer
    canceled, or reports success and itself left that value. *)
Theorem time_until_trigger_sentinel (w : world) :
  let '(r, t, e1) :=
    rcl_timer_get_time_until_next_call api (engine w) (timer_handle_ w) 0 in
  result_of (time_until_trigger api w) = Returned nanoseconds_max <->
  (r = RCL_RET_TIMER_CANCELED \/ (r = RCL_RET_OK /\ t = nanoseconds_max)).
Proof.
  rewrite time_until_trigger_run.
  destruct (rcl_timer_get_time_until_next_call api (engine w)
              (timer_handle_ w) 0) as [[r t] e1].
  runs. cbn [fst snd]. unfold failed.
  destruct (Z.eqb_spec r RCL_RET_TIMER_CANCELED) as [Hc|Hc].
  - split; [intros _; left; exact Hc | reflexivity].
  - destruct (Z.eqb_spec r RCL_RET_OK) as [Ho|Ho]; cbn.
    + split.
      * intros H. injection H as ->. right. split; [exact Ho|reflexivity].
      * intros [H|[_ H]]; [contradiction | rewrite H; reflexivity].
    + split; [discriminate|].
      intros [H|[H _]]; contradiction.
Qed.

(** X13.  After a successful installation, a reset during which the
    engine fires the stored callable runs the newly installed callback,
    once, on the user's state; whatever was stored before the
    installation is not invoked.  The log names this timer, and [reset]
    succeeds or fails by the engine's return code. *)
Theorem installed_callback_fires_alone
    (callback : user_fn) (w : world) (n : size_t) (r : rcl_ret_t) (e : E) :
  let w1 := world_of (set_on_reset_callback api (Some callback) w) in
  result_of (set_on_reset_callback api (Some callback) w) = Returned tt ->
  rcl_timer_reset api (engine w1) (timer_handle_ w1) =
    (r, Some (trampoline_on_reset_callback_, addr_on_reset_callback_, n), e) ->
  user (world_of (reset api w1)) = snd (callback n (user w)) /\
  filter is_user_callback (trace_of (reset api w1)) = [EvUserCallback n] /\
  trace_of (reset api w1) =
    [EvLock callback_mutex_; EvRcl (call_timer_reset (timer_handle_ w));
     EvUserCallback n] ++
    adapter_log (this w) (fst (callback n (user w))) ++
    [EvUnlock callback_mutex_] /\
  result_of (reset api w1) =
    (if failed r
     then Thrown (RCLError r "Couldn't reset timer" (rcl_get_error_string api e))
     else Returned tt).
Proof.
  cbn zeta.
  pose proof (set_on_reset_callback_run api callback w) as R. cbv zeta in R.
  rewrite R. clear R.
  destruct (failed (fst (rcl_timer_set_on_reset_callback api (engine w)
                           (timer_handle_ w) (Some trampoline_new_callback)
                           addr_new_callback))).
  - intros H. discriminate H.
  - intros _. unfold world_of. cbn [fst snd].
    intros Hr.
    match type of Hr with
    | rcl_timer_reset api (engine ?W) _ = _ =>
        pose proof (reset_run api W) as RR
    end.
    rewrite Hr in RR. rewrite (RR eq_refl). runs. cbn.
    destruct (fst (callback n (user w))) as [[ty what|]|]; cbn;
      repeat split; reflexivity.
Qed.

(** X14.  Installing and then clearing: when both calls return, no
    callable is stored, the handle and the user's state are as before the
    installation, and the engine has received three registrations, the
    last of which is the null one. *)
Theorem install_then_clear_restores_empty (callback : user_fn) (w : world) :
  let inst := set_on_reset_callback api (Some callback) w in
  let clr := clear_on_reset_callback api (world_of inst) in
  let h := timer_handle_ w in
  let nc := NewCallback callback (this w) in
  result_of inst = Returned tt ->
  result_of clr = Returned tt ->
  on_reset_callback_ (world_of clr) = None /\
  same_handle w (world_of clr) /\
  user (world_of clr) = user w /\
  filter is_rcl_call (trace_of inst ++ trace_of clr) =
    [EvRcl (call_timer_set_on_reset_callback h (Some trampoline_new_callback)
              addr_new_callback (Some nc));
     EvRcl (call_timer_set_on_reset_callback h
              (Some trampoline_on_reset_callback_) addr_on_reset_callback_
              (Some nc));
     EvRcl (call_timer_set_on_reset_callback h None nullptr None)] /\
  filter touches_callback (trace_of clr) =
    [EvRcl (call_timer_set_on_reset_callback h None nullptr None);
     EvAssignCallback (Some nc) None].
Proof.
  cbn zeta.
  pose proof (set_on_reset_callback_run api callback w) as R. cbv zeta in R.
  rewrite R. clear R.
  destruct (failed (fst (rcl_timer_set_on_reset_callback api (engine w)
                           (timer_handle_ w) (Some trampoline_new_callback)
                           addr_new_callback))).
  - intros H. discriminate H.
  - intros _. unfold world_of. cbn [fst snd].
    rewrite clear_on_reset_callback_run. cbn.
    match goal with
    | |- context [rcl_timer_set_on_reset_callback api ?e0 ?h0 None nullptr] =>
        destruct (rcl_timer_set_on_reset_callback api e0 h0 None nullptr)
          as [r3 e3]
    end.
    destruct (failed r3); runs; cbn; [intros H; discriminate H|].
    intros _. unfold same_handle. cbn. repeat split; reflexivity.
Qed.

End Further.

(** * Concrete runs of the further properties *)

Lemma construction_yields_sole_owner_witness :
  result_of
    (TimerBase ref_rcl 5 1000 None 64 (raw_world (ref_engine_with []) 4096))
    = Returned tt /\
  handle_block
    (world_of
       (TimerBase ref_rcl 5 1000 None 64 (raw_world (ref_engine_with []) 4096)))
    = Some {| use_count := 1; managed := 64; captured_clock := Some 5;
              captured_rcl_context := Some 8 |}.
Proof.
  destruct (construction_yields_sole_owner ref_rcl 5 1000 None 64
              (raw_world (ref_engine_with []) 4096) eq_refl)
    as (R & _ & _ & B & _).
  split; [exact R | exact B].
Defined.

Lemma operations_keep_callback_bound_witness :
  callback_bound
    (fst (run_operations ref_rcl
            [op_set_on_reset_callback (Some throwing_callback); op_reset;
             op_cancel; op_set_on_reset_callback (Some recording_callback)]
            (timer_world (ref_engine_with [0; 0; 0; 0; 7]) None))) /\
  new_callback_local
    (fst (run_operations ref_rcl
            [op_set_on_reset_callback (Some throwing_callback); op_reset;
             op_cancel; op_set_on_reset_callback (Some recording_callback)]
            (timer_world (ref_engine_with [0; 0; 0; 0; 7]) None))) = None.
Proof.
  exact (operations_keep_callback_bound ref_rcl
           [op_set_on_reset_callback (Some throwing_callback); op_reset;
            op_cancel; op_set_on_reset_callback (Some recording_callback)]
           (timer_world (ref_engine_with [0; 0; 0; 0; 7]) None) I eq_refl).
Defined.

Lemma operations_release_their_locks_witness :
  locks_held
    (trace_of
       (run_operation ref_rcl op_reset
          (timer_world (ref_engine_registered [3])
             (Some (NewCallback throwing_callback 4096)))))
    [callback_mutex_] = Some [callback_mutex_] /\
  forallb operation_event
    (trace_of
       (run_operation ref_rcl op_reset
          (timer_world (ref_engine_registered [3])
             (Some (NewCallback throwing_callback 4096))))) = true.
Proof.
  apply (operations_release_their_locks ref_rcl op_reset
           (timer_world (ref_engine_registered [3])
              (Some (NewCallback throwing_callback 4096)))
           [callback_mutex_]).
  vm_compute. discriminate.
Defined.

Lemma lifecycle_finalizes_once_witness :
  filter is_fini_call
    (trace_of
       (TimerBase ref_rcl 5 1000 None 64 (raw_world (ref_engine_with []) 4096))
     ++ snd (run_operations ref_rcl
               [op_set_on_reset_callback (Some throwing_callback); op_reset;
                op_cancel; op_time_until_trigger]
               (world_of
                  (TimerBase ref_rcl 5 1000 None 64
                     (raw_world (ref_engine_with []) 4096))))
     ++ trace_of
          (TimerBase_destructor ref_rcl
             (fst (run_operations ref_rcl
                     [op_set_on_reset_callback (Some throwing_callback);
                      op_reset; op_cancel; op_time_until_trigger]
                     (world_of
                        (TimerBase ref_rcl 5 1000 None 64
                           (raw_world (ref_engine_with []) 4096)))))))
  = [EvRcl (call_timer_fini 64)].
Proof.
  destruct (lifecycle_finalizes_once ref_rcl 5 1000 None 64
              [op_set_on_reset_callback (Some throwing_callback); op_reset;
               op_cancel; op_time_until_trigger]
              (raw_world (ref_engine_with []) 4096) eq_refl eq_refl)
    as (_ & F & _).
  exact F.
Defined.

Lemma shared_handle_survives_destruction_witness :
  filter is_fini_call
    (trace_of
       (TimerBase_destructor ref_rcl
          (world_of (get_timer_handle (timer_world (ref_engine_with []) None)))))
  = [] /\
  handle_block
    (world_of
       (TimerBase_destructor ref_rcl
          (world_of (get_timer_handle (timer_world (ref_engine_with []) None)))))
  = Some {| use_count := 1; managed := 64; captured_clock := Some 5;
            captured_rcl_context := Some 8 |}.
Proof.
  destruct (shared_handle_survives_destruction ref_rcl
              (timer_world (ref_engine_with []) None) 64
              {| use_count := 1; managed := 64; captured_clock := Some 5;
                 captured_rcl_context := Some 8 |}
              eq_refl eq_refl (le_n 1))
    as (_ & F & _ & K).
  split; [exact F | exact (proj1 (K eq_refl))].
Defined.

Lemma destructor_never_throws_witness :
  result_of (TimerBase_destructor ref_rcl (timer_world (ref_engine_with [5]) None))
  = Returned tt.
Proof.
  apply (destructor_never_throws ref_rcl (timer_world (ref_engine_with [5]) None)).
  - reflexivity.
  - intros b H. injection H as <-. discriminate.
Defined.

Lemma failed_second_registration_is_not_rolled_back_witness :
  result_of
    (set_on_reset_callback ref_rcl (Some throwing_callback)
       (timer_world (ref_engine_registered [0; 3])
          (Some (NewCallback recording_callback 4096))))
  = Thrown (RCLError 3 "Failed to set timer on reset callback" "timer failure") /\
  on_reset_callback_
    (world_of
       (set_on_reset_callback ref_rcl (Some throwing_callback)
          (timer_world (ref_engine_registered [0; 3])
             (Some (NewCallback recording_callback 4096)))))
  = Some (NewCallback throwing_callback 4096).
Proof.
  destruct (failed_second_registration_is_not_rolled_back ref_rcl
              throwing_callback
              (timer_world (ref_engine_registered [0; 3])
                 (Some (NewCallback recording_callback 4096)))
              eq_refl eq_refl)
    as (R & S & _).
  split; [exact R | exact S].
Defined.

Lemma installed_callback_fires_alone_witness :
  user
    (world_of
       (reset ref_rcl
          (world_of
             (set_on_reset_callback ref_rcl (Some throwing_int_callback)
                (timer_world (ref_engine_with [])
                   (Some (NewCallback recording_callback 4096)))))))
  = [1] /\
  result_of
    (reset ref_rcl
       (world_of
          (set_on_reset_callback ref_rcl (Some throwing_int_callback)
             (timer_world (ref_engine_with [])
                (Some (NewCallback recording_callback 4096))))))
  = Returned tt.
Proof.
  destruct (installed_callback_fires_alone ref_rcl throwing_int_callback
              (timer_world (ref_engine_with [])
                 (Some (NewCallback recording_callback 4096)))
              1 RCL_RET_OK
              {| script := [];
                 registered :=
                   Some (trampoline_on_reset_callback_, addr_on_reset_callback_);
                 canceled := false; error_string := "timer failure" |}
              eq_refl eq_refl)
    as (Us & _ & _ & R).
  split; [exact Us | exact R].
Defined.

Lemma install_then_clear_restores_empty_witness :
  on_reset_callback_
    (world_of
       (clear_on_reset_callback ref_rcl
          (world_of
             (set_on_reset_callback ref_rcl (Some recording_callback)
                (timer_world (ref_engine_with []) None)))))
  = None.
Proof.
  destruct (install_then_clear_restores_empty ref_rcl recording_callback
              (timer_world (ref_engine_with []) None) eq_refl eq_refl)
    as (S & _).
  exact S.
Defined.
